(** * Huawei Cloud KMS resource plugin: enumeration and remediation actions

    Shallow embedding of [c7n_huaweicloud/resources/kms.py].  The provider
    SDK is an oracle that answers each request from the history of events
    observed so far; every function of the plugin threads that history, so
    that "which requests were issued" and "what was logged" are values one
    can state theorems about. *)

From stdpp Require Import gmap strings list fin_maps.
From Stdlib Require Import ZArith Ascii DecimalString.

Open Scope string_scope.
Open Scope list_scope.
Open Scope Z_scope.

(** ** The fragment of Python's [str] used by the plugin *)

Module PyString.

Definition len (s : string) : Z := Z.of_nat (String.length s).

(** [str(n)] for an integer. *)
Definition of_int (z : Z) : string := NilZero.string_of_int (Z.to_int z).

(** Index normalisation of a slice bound: negative bounds count from the
    end, and every bound is clamped to the string. *)
Definition clamp (i n : Z) : Z :=
  if i <? 0 then Z.max (i + n) 0 else Z.min i n.

(** [s[i:]] *)
Definition slice_from (s : string) (i : Z) : string :=
  let k := Z.to_nat (clamp i (len s)) in
  String.substring k (String.length s - k) s.

(** [s[:i]] *)
Definition slice_to (s : string) (i : Z) : string :=
  String.substring 0 (Z.to_nat (clamp i (len s))) s.

(** [s.find(sub)]: lowest index of an occurrence, -1 when there is none. *)
Fixpoint find_from (sub s : string) (i : Z) : Z :=
  if String.prefix sub s then i
  else match s with
       | EmptyString => -1
       | String _ s' => find_from sub s' (i + 1)
       end.

Definition find (sub s : string) : Z := find_from sub s 0.

(** [s.rfind(sub)]: highest index of an occurrence, -1 when there is none. *)
Fixpoint rfind_from (sub s : string) (i : Z) : Z :=
  match s with
  | EmptyString => if String.prefix sub s then i else -1
  | String _ s' =>
      let r := rfind_from sub s' (i + 1) in
      if 0 <=? r then r
      else if String.prefix sub s then i else -1
  end.

Definition rfind (sub s : string) : Z := rfind_from sub s 0.

(** [s.split(sep, 1)]: at most one split, at the first occurrence. *)
Definition split1 (sep s : string) : list string :=
  let i := find sep s in
  if i <? 0 then [s]
  else [slice_to s i; slice_from s (i + len sep)].

Fixpoint mem_char (c : Ascii.ascii) (chars : string) : bool :=
  match chars with
  | EmptyString => false
  | String d chars' => if Ascii.eqb c d then true else mem_char c chars'
  end.

(** [s.lstrip(chars)]: drops every leading character that is in [chars]. *)
Fixpoint lstrip (chars s : string) : string :=
  match s with
  | EmptyString => EmptyString
  | String c s' => if mem_char c chars then lstrip chars s' else s
  end.

(** [s.replace(old, new)]: every non-overlapping occurrence, left to
    right.  [skip] counts the characters of a matched occurrence that are
    still to be consumed. *)
Fixpoint replace_go (old new : string) (skip : nat) (s : string) : string :=
  match s with
  | EmptyString => EmptyString
  | String c s' =>
      match skip with
      | S k => replace_go old new k s'
      | O =>
          if String.prefix old s
          then new +:+ replace_go old new (String.length old - 1) s'
          else String c (replace_go old new 0 s')
      end
  end.

(** With an empty [old], Python puts [new] around every character. *)
Fixpoint interleave (new s : string) : string :=
  match s with
  | EmptyString => new
  | String c s' => new +:+ String c (interleave new s')
  end.

Definition replace (old new s : string) : string :=
  match old with
  | EmptyString => interleave new s
  | _ => replace_go old new 0 s
  end.

End PyString.

(** ** Exceptions and outcomes *)

(** The provider SDK raises service exceptions that carry an HTTP status
    code; [ClientRequestException] is the class named by the [except]
    clause of [createKey.process].  Every other Python exception
    ([IndexError], [KeyError], [TypeError], a connection error, ...) has no
    [status_code] attribute. *)
Inductive exn : Type :=
| ClientRequestException (status_code : Z) (request_id error_code error_msg : string)
| ServerResponseException (status_code : Z) (request_id error_code error_msg : string)
| PyError (class message : string).

Definition exn_status_code (e : exn) : option Z :=
  match e with
  | ClientRequestException c _ _ _ | ServerResponseException c _ _ _ => Some c
  | PyError _ _ => None
  end.

Definition exn_error_msg (e : exn) : option string :=
  match e with
  | ClientRequestException _ _ _ m | ServerResponseException _ _ _ m => Some m
  | PyError _ _ => None
  end.

(** [str(e)] *)
Definition exn_str (e : exn) : string :=
  match e with
  | ClientRequestException _ _ _ m | ServerResponseException _ _ _ m => m
  | PyError _ m => m
  end.

Definition IndexError : exn := PyError "IndexError" "list index out of range".
Definition KeyError (k : string) : exn := PyError "KeyError" k.
Definition TypeError : exn := PyError "TypeError" "'NoneType' object is not iterable".
Definition AttributeError (a : string) : exn := PyError "AttributeError" a.

Inductive outcome (A : Type) : Type :=
| Ret (a : A)
| Raise (e : exn).
Arguments Ret {A} a.
Arguments Raise {A} e.

(** ** URL decomposition helpers of [createKey] *)

Definition get_obs_name (obs_url : string) : string :=
  let last_obs_index := PyString.rfind ".obs" obs_url in
  PyString.slice_to obs_url last_obs_index.

Definition get_obs_server (obs_url : string) : outcome string :=
  let last_obs_index := PyString.rfind ".obs" obs_url in
  let remaining_after_obs := PyString.slice_from obs_url last_obs_index in
  let split_res := PyString.split1 "/" remaining_after_obs in
  match split_res !! 0%nat with
  | Some s => Ret (PyString.lstrip "." s)
  | None => Raise IndexError
  end.

Definition get_file_path (obs_url : string) : outcome string :=
  let last_obs_index := PyString.rfind ".obs" obs_url in
  let remaining_after_obs := PyString.slice_from obs_url last_obs_index in
  let split_res := PyString.split1 "/" remaining_after_obs in
  match split_res !! 1%nat with
  | Some s => Ret s
  | None => Raise IndexError
  end.

(** [obs_url[len("https://"):]] *)
Definition path_without_protocol (obs_url : string) : string :=
  PyString.slice_from obs_url (PyString.len "https://").


(** ** Values, records and SDK messages *)

Record TagItem : Type := { tag_key : string; tag_value : string }.

(** The Python values that occur as fields of a key record: [to_dict()]
    renders SDK attributes as strings, numbers, booleans, [None], and the
    tag list as a list of key/value mappings. *)
Inductive pyval : Type :=
| VNone
| VStr (s : string)
| VInt (z : Z)
| VBool (b : bool)
| VTags (l : list TagItem).

#[global] Instance TagItem_eq_dec : EqDecision TagItem.
Proof. solve_decision. Defined.
#[global] Instance pyval_eq_dec : EqDecision pyval.
Proof. solve_decision. Defined.

(** A key record: the dictionary handed to filters and actions. *)
Abbreviation record := (gmap string pyval).

(** [ListKmsByTagsRequestBody(action=..., offset=..., limit=...)] *)
Record ListKmsByTagsRequestBody : Type :=
  { tb_action : string; tb_offset : string; tb_limit : string }.

Record ListKmsByTagsRequest : Type :=
  { tr_resource_instances : string; tr_body : ListKmsByTagsRequestBody }.

(** One entry of [responseTag.resources]; [ar_tags] is what
    [to_dict().get('tags')] yields, [None] when the SDK left it unset. *)
Record ActionResources : Type :=
  { ar_resource_id : string; ar_tags : option (list TagItem) }.

(** SDK response attributes default to [None]. *)
Record ListKmsByTagsResponse : Type :=
  { resources : option (list ActionResources); total_count : option Z }.

Record ListKeysRequest : Type := { lk_key_spec : string }.

(** A key detail of the SDK: its [key_id] and the other attributes as
    [to_dict()] renders them. *)
Record KeyDetails : Type :=
  { kd_key_id : string; kd_attrs : record }.

Definition to_dict (detail : KeyDetails) : record :=
  <["key_id" := VStr (kd_key_id detail)]> (kd_attrs detail).

Record ListKeysResponse : Type := { key_details : option (list KeyDetails) }.

(** [OperateKeyRequestBody(key_id=..., sequence=...)] *)
Record OperateKeyRequestBody : Type :=
  { ok_key_id : pyval; ok_sequence : string }.

Record CreateKeyRequestBody : Type := { ck_key_alias : string }.
Record KeyInfo : Type := { ki_key_id : string }.
Record CreateKeyResponse : Type := { key_info : option KeyInfo }.
Record CreateAliasRequestBody : Type := { ca_key_id : string; ca_alias : string }.

(** [listAliasResponse.body[0].aliases], each entry read through [.alias]. *)
Record ListAliasesBody : Type := { aliases : list string }.
Record ListAliasesResponse : Type := { la_body : list ListAliasesBody }.

(** Response of the object-storage [getObject]. *)
Record ObsResponse : Type :=
  { status : Z; body_buffer : string; errorCode : string; errorMessage : string }.

(** ** Events and the provider oracle *)

Inductive ApiCall : Type :=
| list_kms_by_tags_call (request : ListKmsByTagsRequest)
| list_keys_call (request : ListKeysRequest)
| enable_key_rotation_call (body : OperateKeyRequestBody)
| disable_key_rotation_call (body : OperateKeyRequestBody)
| enable_key_call (body : OperateKeyRequestBody)
| disable_key_call (body : OperateKeyRequestBody)
| list_aliases_call
| create_key_call (body : CreateKeyRequestBody)
| create_alias_call (body : CreateAliasRequestBody)
| getObject_call (server bucketName objectKey : string).

Inductive LogLevel : Type := INFO | ERROR.

(** Everything observable: requests to the provider, log lines (the
    message template and the values formatted into it), and reads of the
    clock and of the random source. *)
Inductive Event : Type :=
| EvCall (c : ApiCall)
| EvLog (level : LogLevel) (msg : string) (args : list pyval)
| EvUuid
| EvTime
| EvSleep (seconds : Z).

(** The world outside the plugin.  Each operation answers from the history
    of events that precede it, so successive calls may answer differently. *)
Record Provider : Type := {
  list_kms_by_tags : list Event -> ListKmsByTagsRequest -> outcome ListKmsByTagsResponse;
  list_keys : list Event -> ListKeysRequest -> outcome ListKeysResponse;
  enable_key_rotation : list Event -> OperateKeyRequestBody -> outcome unit;
  disable_key_rotation : list Event -> OperateKeyRequestBody -> outcome unit;
  enable_key : list Event -> OperateKeyRequestBody -> outcome unit;
  disable_key : list Event -> OperateKeyRequestBody -> outcome unit;
  list_aliases : list Event -> outcome ListAliasesResponse;
  create_key : list Event -> CreateKeyRequestBody -> outcome CreateKeyResponse;
  create_alias : list Event -> CreateAliasRequestBody -> outcome unit;
  getObject : list Event -> string -> string -> string -> outcome ObsResponse;
  (** [uuid.uuid4().hex] *)
  uuid4_hex : list Event -> string;
  (** [int(time.time())] *)
  time_time : list Event -> Z;
  (** [json.loads(buffer)['obs_key_aliases']] *)
  json_obs_key_aliases : string -> outcome (list string)
}.

(** ** Computations over the event history *)

Definition M (A : Type) : Type := list Event -> outcome A * list Event.

Definition ret {A} (a : A) : M A := fun h => (Ret a, h).
Definition raise {A} (e : exn) : M A := fun h => (Raise e, h).

Definition bind {A B} (m : M A) (k : A -> M B) : M B :=
  fun h => match m h with
           | (Ret a, h') => k a h'
           | (Raise e, h') => (Raise e, h')
           end.

#[global] Instance M_ret : MRet M := @ret.
#[global] Instance M_bind : MBind M := fun A B k m => bind m k.

(** [try: m  except Exception as e: handler e] *)
Definition try_except {A} (m : M A) (handler : exn -> M A) : M A :=
  fun h => match m h with
           | (Ret a, h') => (Ret a, h')
           | (Raise e, h') => handler e h'
           end.

Definition lift {A} (o : outcome A) : M A := fun h => (o, h).

Definition emit (e : Event) : M unit := fun h => (Ret tt, h ++ [e]).

(** A request: the provider answers from the history before the request,
    and the request is recorded whether it succeeds or raises. *)
Definition request {A} (c : ApiCall) (answer : list Event -> outcome A) : M A :=
  fun h => (answer h, h ++ [EvCall c]).

Definition log_info (msg : string) (args : list pyval) : M unit :=
  emit (EvLog INFO msg args).
Definition log_error (msg : string) (args : list pyval) : M unit :=
  emit (EvLog ERROR msg args).

(** [uuid.uuid4().hex], [int(time.time())] and [time.sleep(s)] *)
Definition uuid4 (client : Provider) : M string :=
  fun h => (Ret (uuid4_hex client h), h ++ [EvUuid]).
Definition now (client : Provider) : M Z :=
  fun h => (Ret (time_time client h), h ++ [EvTime]).
Definition sleep (seconds : Z) : M unit := emit (EvSleep seconds).

(** [for x in l: body x] *)
Fixpoint for_each {A} (l : list A) (body : A -> M unit) : M unit :=
  match l with
  | [] => ret tt
  | x :: l' => body x ;; for_each l' body
  end.

(** The requests among a list of events. *)
Definition api_calls (h : list Event) : list ApiCall :=
  omap (fun e => match e with EvCall c => Some c | _ => None end) h.

(** ** Python operations on record fields *)

(** [resource[k]] *)
Definition getitem (resource : record) (k : string) : M pyval :=
  match resource !! k with
  | Some v => ret v
  | None => raise (KeyError k)
  end.

(** [v == s] for a string literal [s]. *)
Definition eq_str (v : pyval) (s : string) : bool :=
  match v with
  | VStr t => bool_decide (t = s)
  | _ => false
  end.

(** [v in {s1, ..., sn}] for a set of string literals: a list is not
    hashable, every other value is looked up by equality. *)
Definition in_strs (v : pyval) (strs : list string) : M bool :=
  match v with
  | VStr t => ret (bool_decide (t ∈ strs))
  | VTags _ => raise (PyError "TypeError" "unhashable type: 'list'")
  | _ => ret false
  end.

(** [a and b], evaluating [b] only when [a] is true. *)
Definition and_then (a b : M bool) : M bool :=
  a ≫= fun x : bool => if x then b else ret false.

(** ** Resource enumeration: [Kms.get_api_resources] *)

Definition limit : Z := 1000.

Definition tag_request (offset : Z) : ListKmsByTagsRequest :=
  {| tr_resource_instances := "resource_instances";
     tr_body := {| tb_action := "filter";
                   tb_offset := PyString.of_int offset;
                   tb_limit := PyString.of_int limit |} |}.

(** [tagResource.to_dict().get('tags')] *)
Definition tags_value (t : option (list TagItem)) : pyval :=
  match t with
  | Some l => VTags l
  | None => VNone
  end.

(** The inner [for] of the tag loop: later entries overwrite earlier ones. *)
Definition store_tags (resourceTagDict : gmap string pyval)
    (tagResources : list ActionResources) : gmap string pyval :=
  foldl (fun d tagResource =>
           <[ar_resource_id tagResource := tags_value (ar_tags tagResource)]> d)
        resourceTagDict tagResources.

(** [not responseTag.total_count] *)
Definition falsy_count (c : option Z) : bool :=
  match c with
  | None => true
  | Some z => z =? 0
  end.

(** [ListKeysRequest()] with [key_spec = "ALL"] *)
Definition keys_request : ListKeysRequest := {| lk_key_spec := "ALL" |}.

Definition query_failed (e : exn) : Event :=
  EvLog ERROR "Failed to query API list: {}" [VStr (exn_str e)].

Module Kms.
Section WithClient.

Variable client : Provider.

(** The [while True] loop over the tag pages.  It cannot raise: every
    exception of the [try] block is logged and leaves the loop.  [None]
    means that [fuel] iterations did not reach a [break]. *)
Fixpoint tag_loop (fuel : nat) (offset : Z) (resourceTagDict : gmap string pyval)
    (h : list Event) : option (gmap string pyval * list Event) :=
  match fuel with
  | O => None
  | S fuel' =>
      let requestTag := tag_request offset in
      let h1 := h ++ [EvCall (list_kms_by_tags_call requestTag)] in
      match list_kms_by_tags client h requestTag with
      | Raise e => Some (resourceTagDict, h1 ++ [query_failed e])
      | Ret responseTag =>
          match resources responseTag with
          | None => Some (resourceTagDict, h1 ++ [query_failed TypeError])
          | Some tagResources =>
              let resourceTagDict' := store_tags resourceTagDict tagResources in
              let offset' := offset + limit in
              if falsy_count (total_count responseTag)
                 || (Z.of_nat (length tagResources) <=? offset')
              then Some (resourceTagDict', h1)
              else tag_loop fuel' offset' resourceTagDict' h1
          end
      end
  end.

(** The body of the merge loop. *)
Definition merge_detail (resourceTagDict : gmap string pyval)
    (detail : KeyDetails) : record :=
  let dict := to_dict detail in
  let dict := <["tags" := default (VTags []) (resourceTagDict !! kd_key_id detail)]> dict in
  <["id" := VStr (kd_key_id detail)]> dict.

(** Key listing and merge, after the tag loop. *)
Definition list_and_merge (resourceTagDict : gmap string pyval) : M (list record) :=
  try_except
    (response ← request (list_keys_call keys_request)
                   (fun h => list_keys client h keys_request);
     match key_details response with
     | None => raise TypeError
     | Some details => ret (map (merge_detail resourceTagDict) details)
     end)
    (fun e => emit (query_failed e) ;; raise e).

Definition get_api_resources (fuel : nat) (h : list Event)
    : option (outcome (list record) * list Event) :=
  match tag_loop fuel 0 ∅ h with
  | None => None
  | Some (resourceTagDict, h1) => Some (list_and_merge resourceTagDict h1)
  end.

(** [resource["key_id"] in resource_ids], for a list of key ids. *)
Definition in_ids (v : pyval) (resource_ids : list string) : bool :=
  match v with
  | VStr s => bool_decide (s ∈ resource_ids)
  | _ => false
  end.

(** The selection loop of [get_resources]. *)
Fixpoint select_resources (resource_ids : list string) (allResources : list record)
    : M (list record) :=
  match allResources with
  | [] => ret []
  | resource :: rest =>
      key_id ← getitem resource "key_id";
      selected ← select_resources resource_ids rest;
      ret (if in_ids key_id resource_ids then resource :: selected else selected)
  end.

(** [Kms.get_resources]: the enumerated records whose key id is asked for. *)
Definition get_resources (resource_ids : list string) (fuel : nat) (h : list Event)
    : option (outcome (list record) * list Event) :=
  match get_api_resources fuel h with
  | None => None
  | Some (Raise e, h') => Some (Raise e, h')
  | Some (Ret allResources, h') => Some (select_resources resource_ids allResources h')
  end.

(** [Kms._fetch_resources] *)
Definition _fetch_resources (fuel : nat) (h : list Event)
    : option (outcome (list record) * list Event) :=
  get_api_resources fuel h.

End WithClient.
End Kms.

(** ** Action [enable_key_rotation] *)

Module rotationKey.
Section WithClient.

Variable client : Provider.

Definition supportList : list string := ["AES_256"; "SM4"].

(** The condition of the [if], evaluated left to right. *)
Definition condition (resource : record) : M bool :=
  and_then (v ← getitem resource "default_key_flag"; ret (eq_str v "0"))
 (and_then (v ← getitem resource "key_spec"; in_strs v supportList)
 (and_then (v ← getitem resource "keystore_id"; ret (eq_str v "0"))
           (v ← getitem resource "key_state"; in_strs v ["2"]))).

Definition success_message : string :=
  "enable_key_rotation the resourceType:KMS resourceId={},success".
Definition benign_message : string :=
  "the key rotation is already enabled or the key is not supported "
  +:+ "for rotation, resourceId={},msg={}".
Definition failed_message : string :=
  "enable_key_rotation the resourceType:KMS resourceId={} is failed".

(** The handler of [except Exception as e]: reading [e.status_code] of an
    exception that has none raises [AttributeError]. *)
Definition handler (resourceId : pyval) (e : exn) : M unit :=
  match exn_status_code e, exn_error_msg e with
  | Some status_code, Some error_msg =>
      if status_code =? 400
      then log_info benign_message [resourceId; VStr error_msg]
      else log_error failed_message [resourceId]
  | _, _ => raise (AttributeError "status_code")
  end.

Definition skip_message : string :=
  "skip enable_key_rotation the resourceType:KMS resourceId={},"
  +:+ "The key does not meet the conditions for "
  +:+ "enabling rotation.The conditions for ending the key are:"
  +:+ "the key is not the default key,is not a shared "
  +:+ "key,and the algorithm is SM4 or AES_256".

Definition perform_action (resource : record) : M unit :=
  resourceId ← getitem resource "key_id";
  condition resource ≫= fun eligible : bool =>
  if eligible then
    key_id ← getitem resource "key_id";
    sequence ← uuid4 client;
    let body := {| ok_key_id := key_id; ok_sequence := sequence |} in
    try_except
      (request (enable_key_rotation_call body)
               (fun h => enable_key_rotation client h body) ;;
       log_info success_message [resourceId])
      (handler resourceId)
  else
    log_info skip_message [resourceId].

End WithClient.
End rotationKey.

(** ** Action [disable_key_rotation] *)

Module disableRotationKey.
Section WithClient.

Variable client : Provider.

Definition notSupportList : list string :=
  ["RSA_2048"; "RSA_3072"; "RSA_4096"; "EC_P256"; "EC_P384";
   "SM2"; "ML_DSA_44"; "ML_DSA_65"; "ML_DSA_87"].

Definition condition (resource : record) : M bool :=
  and_then (v ← getitem resource "default_key_flag"; ret (eq_str v "0"))
 (and_then (v ← getitem resource "key_spec";
            unsupported ← in_strs v notSupportList; ret (negb unsupported))
 (and_then (v ← getitem resource "keystore_id"; ret (eq_str v "0"))
           (v ← getitem resource "key_state"; in_strs v ["2"; "3"; "4"]))).

Definition perform_action (resource : record) : M unit :=
  condition resource ≫= fun eligible : bool =>
  if eligible then
    key_id ← getitem resource "key_id";
    sequence ← uuid4 client;
    let body := {| ok_key_id := key_id; ok_sequence := sequence |} in
    try_except
      (request (disable_key_rotation_call body)
               (fun h => disable_key_rotation client h body))
      (fun e => raise e)
  else ret tt.

End WithClient.
End disableRotationKey.

(** ** Actions [enable_key] and [disable_key] *)

Module enableKey.
Definition perform_action (client : Provider) (resource : record) : M unit :=
  key_id ← getitem resource "key_id";
  sequence ← uuid4 client;
  let body := {| ok_key_id := key_id; ok_sequence := sequence |} in
  try_except
    (request (enable_key_call body) (fun h => enable_key client h body))
    (fun e => raise e).
End enableKey.

Module disableKey.
Definition perform_action (client : Provider) (resource : record) : M unit :=
  key_id ← getitem resource "key_id";
  sequence ← uuid4 client;
  let body := {| ok_key_id := key_id; ok_sequence := sequence |} in
  try_except
    (request (disable_key_call body) (fun h => disable_key client h body))
    (fun e => raise e).
End disableKey.

(** ** Action [create-key-with-alias] *)

(** The action's configuration [self.data]; a field is [None] when the
    policy does not give it. *)
Record ActionData : Type :=
  { key_aliases : option (list string); obs_url : option string }.

(** What [process] returns: the literal [[]] of its early exits, or [None]
    when it runs to its end. *)
Inductive process_result : Type := EmptyList | NoneValue.

Module createKey.
Section WithClient.

Variable client : Provider.

(** The order in which a [for] loop visits a Python set. *)
Variable set_iter : gset string -> list string.

(** The manifest branch: decomposes the URL, fetches the object and adds
    its aliases.  [inr] is an early [return]. *)
Definition fetch_manifest (all_key_aliases : gset string) (obs_url : string)
    : M (gset string + process_result) :=
  let path_without_protocol := path_without_protocol obs_url in
  let obs_bucket_name := get_obs_name path_without_protocol in
  obs_server ← lift (get_obs_server path_without_protocol);
  obs_file ← lift (get_file_path path_without_protocol);
  try_except
    (resp ← request (getObject_call obs_server obs_bucket_name obs_file)
              (fun h => getObject client h obs_server obs_bucket_name obs_file);
     if status resp <? 300
     then
       obs_key_aliases ← lift (json_obs_key_aliases client (body_buffer resp));
       ret (inl (all_key_aliases ∪ list_to_set obs_key_aliases))
     else
       log_error "get obs object failed: {}, {}"
                 [VStr (errorCode resp); VStr (errorMessage resp)] ;;
       ret (inr EmptyList))
    (fun e =>
       match e with
       | ClientRequestException status_code request_id error_code error_msg =>
           log_error (PyString.of_int status_code)
                     [VStr request_id; VStr error_code; VStr error_msg] ;;
           raise e
       | _ => raise e
       end).

(** The body of the creation loop for one desired alias. *)
Definition create_missing (arr : gset string) (alias : string) : M unit :=
  if bool_decide (alias ∈ arr) then ret tt
  else
    timestamp ← now client;
    let keyName := PyString.of_int timestamp in
    try_except
      (createKeyResponse ← request (create_key_call {| ck_key_alias := keyName |})
                             (fun h => create_key client h {| ck_key_alias := keyName |});
       createKeyId ← match key_info createKeyResponse with
                     | Some info => ret (ki_key_id info)
                     | None => raise (AttributeError "key_id")
                     end;
       let body := {| ca_key_id := createKeyId; ca_alias := "alias/" +:+ alias |} in
       request (create_alias_call body) (fun h => create_alias client h body) ;;
       sleep 1)
      (fun e => raise e).

Definition process (data : ActionData) : M process_result :=
  let key_aliases := default [] (key_aliases data) in
  let all_key_aliases : gset string := list_to_set key_aliases in
  if bool_decide (key_aliases = []) && bool_decide (obs_url data = None)
  then log_error "key_aliases or obs_url is required" [] ;; ret EmptyList
  else
    fetched ← match obs_url data with
              | Some url =>
                  if bool_decide (url ≠ "")
                  then fetch_manifest all_key_aliases url
                  else ret (inl all_key_aliases)
              | None => ret (inl all_key_aliases)
              end;
    match fetched with
    | inr early => ret early
    | inl all_key_aliases =>
        listAliasResponse ← request list_aliases_call (list_aliases client);
        first ← match la_body listAliasResponse !! 0%nat with
                | Some b => ret b
                | None => raise IndexError
                end;
        let arr : gset string :=
          list_to_set (map (PyString.replace "alias/" "") (aliases first)) in
        (if bool_decide (size all_key_aliases ≠ 0%nat)
         then for_each (set_iter all_key_aliases) (create_missing arr)
         else ret tt) ;;
        ret NoneValue
    end.

End WithClient.
End createKey.

(** ** Specification-side predicates on key records *)

(** Values that can be looked up in a set. *)
Definition hashable (v : pyval) : bool :=
  match v with VTags _ => false | _ => true end.

Definition has_field (r : record) (k : string) : bool :=
  match r !! k with
  | Some v => hashable v
  | None => false
  end.

(** A key record carries the fields the actions read. *)
Definition is_key_record (r : record) : Prop :=
  forallb (has_field r)
          ["key_id"; "default_key_flag"; "key_spec"; "keystore_id"; "key_state"] = true.

(** Eligibility for enabling rotation, as the specification words it. *)
Definition enable_eligible (r : record) : Prop :=
  r !! "default_key_flag" = Some (VStr "0") /\
  (r !! "key_spec" = Some (VStr "AES_256") \/ r !! "key_spec" = Some (VStr "SM4")) /\
  r !! "keystore_id" = Some (VStr "0") /\
  r !! "key_state" = Some (VStr "2").

#[global] Instance enable_eligible_dec r : Decision (enable_eligible r).
Proof. unfold enable_eligible. apply _. Defined.

(** Eligibility for disabling rotation, as the specification words it. *)
Definition disable_eligible (r : record) : Prop :=
  r !! "default_key_flag" = Some (VStr "0") /\
  match r !! "key_spec" with
  | Some v => hashable v = true /\ v ∉ VStr <$> disableRotationKey.notSupportList
  | None => False
  end /\
  r !! "keystore_id" = Some (VStr "0") /\
  (r !! "key_state" = Some (VStr "2") \/ r !! "key_state" = Some (VStr "3")
   \/ r !! "key_state" = Some (VStr "4")).

(** ** Specification-side predicates on the tag loop *)

(** [pages client n s s']: from loop state [s] (offset, collected tags,
    history), [n] tag requests succeed and ask for a further page, which
    leaves the loop in state [s']. *)
Inductive pages (client : Provider) :
  nat -> Z * gmap string pyval * list Event -> Z * gmap string pyval * list Event -> Prop :=
| pages_done s : pages client 0 s s
| pages_next n offset dict h responseTag tagResources s' :
    list_kms_by_tags client h (tag_request offset) = Ret responseTag ->
    resources responseTag = Some tagResources ->
    falsy_count (total_count responseTag) = false ->
    offset + limit < Z.of_nat (length tagResources) ->
    pages client n
          (offset + limit, store_tags dict tagResources,
           h ++ [EvCall (list_kms_by_tags_call (tag_request offset))]) s' ->
    pages client (S n) (offset, dict, h) s'.

Definition is_tag_call (c : ApiCall) : bool :=
  match c with list_kms_by_tags_call _ => true | _ => false end.

(** The test of [get_resources] on a record, [false] when it has no key id. *)
Definition selected_by (resource_ids : list string) (r : record) : bool :=
  match r !! "key_id" with
  | Some v => Kms.in_ids v resource_ids
  | None => false
  end.

(** The last entry of a tag page that is about [id]. *)
Definition last_entry (id : string) (tagResources : list ActionResources)
    : option ActionResources :=
  last (List.filter (fun r => bool_decide (ar_resource_id r = id)) tagResources).

#[global] Instance disable_eligible_dec r : Decision (disable_eligible r).
Proof. unfold disable_eligible. destruct (r !! "key_spec"); apply _. Defined.

(** ** Specification-side predicates on strings *)

(** [sub in s] *)
Fixpoint occurs (sub s : string) : bool :=
  String.prefix sub s
  || match s with
     | EmptyString => false
     | String _ s' => occurs sub s'
     end.

(** ** Specification-side observations on the creation loop *)

(** The aliases of the [create_alias] requests among some events, in order. *)
Definition created_aliases (evs : list Event) : list string :=
  omap (fun e => match e with
                 | EvCall (create_alias_call body) => Some (ca_alias body)
                 | _ => None
                 end) evs.

(** The number of [create_key] requests among some events. *)
Definition created_keys (evs : list Event) : nat :=
  length (List.filter (fun e => match e with
                                | EvCall (create_key_call _) => true
                                | _ => false
                                end) evs).

(** The stripped names of the aliases the provider lists. *)
Definition existing_aliases (first : ListAliasesBody) : gset string :=
  list_to_set (map (PyString.replace "alias/" "") (aliases first)).

(** A provider whose creation requests always succeed. *)
Definition creation_succeeds (client : Provider) : Prop :=
  (forall h body, exists info, create_key client h body = Ret {| key_info := Some info |}) /\
  (forall h body, create_alias client h body = Ret tt).

(** ** Concrete providers and records used to run the model *)

Module Fixtures.

Definition url : string := "https://bucket1.obs.region1.example.com/path/to/kms.txt".

(** A provider whose every request succeeds with an empty answer. *)
Definition quiet : Provider :=
  {| list_kms_by_tags := fun _ _ => Ret {| resources := Some []; total_count := Some 0 |};
     list_keys := fun _ _ => Ret {| key_details := Some [] |};
     enable_key_rotation := fun _ _ => Ret tt;
     disable_key_rotation := fun _ _ => Ret tt;
     enable_key := fun _ _ => Ret tt;
     disable_key := fun _ _ => Ret tt;
     list_aliases := fun _ => Ret {| la_body := [{| aliases := [] |}] |};
     create_key := fun _ _ => Ret {| key_info := Some {| ki_key_id := "key-1" |} |};
     create_alias := fun _ _ => Ret tt;
     getObject := fun _ _ _ _ =>
       Ret {| status := 200; body_buffer := "{}"; errorCode := ""; errorMessage := "" |};
     uuid4_hex := fun _ => "9f1c2a7e5b3d4c6f8a0b1c2d3e4f5a6b";
     time_time := fun _ => 1762214400;
     json_obs_key_aliases := fun _ => Ret [] |}.

(** [quiet] with the rotation requests answered by [answer]. *)
Definition rotation_answers (answer : outcome unit) : Provider :=
  {| list_kms_by_tags := list_kms_by_tags quiet;
     list_keys := list_keys quiet;
     enable_key_rotation := fun _ _ => answer;
     disable_key_rotation := fun _ _ => answer;
     enable_key := enable_key quiet;
     disable_key := disable_key quiet;
     list_aliases := list_aliases quiet;
     create_key := create_key quiet;
     create_alias := create_alias quiet;
     getObject := getObject quiet;
     uuid4_hex := uuid4_hex quiet;
     time_time := time_time quiet;
     json_obs_key_aliases := json_obs_key_aliases quiet |}.

(** [quiet] with the object-storage fetch answered by [answer]. *)
Definition obs_answers (answer : outcome ObsResponse) : Provider :=
  {| list_kms_by_tags := list_kms_by_tags quiet;
     list_keys := list_keys quiet;
     enable_key_rotation := enable_key_rotation quiet;
     disable_key_rotation := disable_key_rotation quiet;
     enable_key := enable_key quiet;
     disable_key := disable_key quiet;
     list_aliases := list_aliases quiet;
     create_key := create_key quiet;
     create_alias := create_alias quiet;
     getObject := fun _ _ _ _ => answer;
     uuid4_hex := uuid4_hex quiet;
     time_time := time_time quiet;
     json_obs_key_aliases := json_obs_key_aliases quiet |}.

(** [quiet] with the given existing aliases. *)
Definition with_aliases (existing : list string) : Provider :=
  {| list_kms_by_tags := list_kms_by_tags quiet;
     list_keys := list_keys quiet;
     enable_key_rotation := enable_key_rotation quiet;
     disable_key_rotation := disable_key_rotation quiet;
     enable_key := enable_key quiet;
     disable_key := disable_key quiet;
     list_aliases := fun _ => Ret {| la_body := [{| aliases := existing |}] |};
     create_key := create_key quiet;
     create_alias := create_alias quiet;
     getObject := getObject quiet;
     uuid4_hex := uuid4_hex quiet;
     time_time := time_time quiet;
     json_obs_key_aliases := json_obs_key_aliases quiet |}.

(** [quiet] with the two listing requests answered as given. *)
Definition listing (tags : list Event -> ListKmsByTagsRequest -> outcome ListKmsByTagsResponse)
    (keys : outcome ListKeysResponse) : Provider :=
  {| list_kms_by_tags := tags;
     list_keys := fun _ _ => keys;
     enable_key_rotation := enable_key_rotation quiet;
     disable_key_rotation := disable_key_rotation quiet;
     enable_key := enable_key quiet;
     disable_key := disable_key quiet;
     list_aliases := list_aliases quiet;
     create_key := create_key quiet;
     create_alias := create_alias quiet;
     getObject := getObject quiet;
     uuid4_hex := uuid4_hex quiet;
     time_time := time_time quiet;
     json_obs_key_aliases := json_obs_key_aliases quiet |}.

(** An enabled AES key of the default keystore. *)
Definition aes_key : record :=
  <["key_id" := VStr "k-aes"]>
  (<["default_key_flag" := VStr "0"]>
  (<["key_spec" := VStr "AES_256"]>
  (<["keystore_id" := VStr "0"]>
  (<["key_state" := VStr "2"]> ∅)))).

(** The same key, as an asymmetric RSA key. *)
Definition rsa_key : record := <["key_spec" := VStr "RSA_2048"]> aes_key.

Definition bad_request : exn :=
  ClientRequestException 400 "req-1" "KMS.0001" "rotation already enabled".
Definition forbidden : exn :=
  ClientRequestException 403 "req-2" "KMS.0306" "access denied".
Definition unavailable : exn :=
  ServerResponseException 500 "req-3" "KMS.0500" "internal error".

Definition not_found : ObsResponse :=
  {| status := 404; body_buffer := ""; errorCode := "NoSuchKey";
     errorMessage := "The specified key does not exist." |}.

Definition from_manifest : ActionData :=
  {| key_aliases := Some ["a"]; obs_url := Some url |}.

Definition a_and_c : ActionData := {| key_aliases := Some ["a"; "c"]; obs_url := None |}.

Definition env_tag : TagItem := {| tag_key := "env"; tag_value := "prod" |}.

Definition tagged (id : string) : ActionResources :=
  {| ar_resource_id := id; ar_tags := Some [env_tag] |}.

(** A page that is longer than the page size. *)
Definition long_page : list ActionResources := replicate 1001 (tagged "k-aes").

(** The first page succeeds and asks for more; every later page fails. *)
Definition second_page_fails (h : list Event) (request : ListKmsByTagsRequest)
    : outcome ListKmsByTagsResponse :=
  if String.eqb (tb_offset (tr_body request)) "0"
  then Ret {| resources := Some long_page; total_count := Some 1500 |}
  else Raise unavailable.

(** A short first page, although the provider reports 2500 tagged keys. *)
Definition short_page (h : list Event) (request : ListKmsByTagsRequest)
    : outcome ListKmsByTagsResponse :=
  Ret {| resources := Some [tagged "k-aes"]; total_count := Some 2500 |}.

Definition two_details : list KeyDetails :=
  [{| kd_key_id := "k-aes"; kd_attrs := aes_key |};
   {| kd_key_id := "k-rsa"; kd_attrs := rsa_key |}].

Definition first_tag_call : Event := EvCall (list_kms_by_tags_call (tag_request 0)).
Definition keys_call : Event := EvCall (list_keys_call keys_request).

(** Key listing answers without a [key_details] attribute. *)
Definition no_details : Provider :=
  listing (list_kms_by_tags quiet) (Ret {| key_details := None |}).

(** Every tag request fails; key listing succeeds. *)
Definition tags_down : Provider :=
  listing (fun _ _ => Raise unavailable) (Ret {| key_details := Some two_details |}).

Definition one_page : Provider :=
  listing short_page (Ret {| key_details := Some two_details |}).

(** A record of a default key that carries no other attribute. *)
Definition bare_default_key : record :=
  <["key_id" := VStr "k-default"]> (<["default_key_flag" := VStr "1"]> ∅).

(** An exception of the transport layer: it has no status code. *)
Definition connection_error : exn := PyError "ConnectionError" "connection timed out".

(** [quiet] with the requests of [create-key-with-alias] answered as given. *)
Definition scripted (listing : outcome ListAliasesResponse)
    (key : outcome CreateKeyResponse) (alias : outcome unit)
    (object : outcome ObsResponse) (json : outcome (list string)) : Provider :=
  {| list_kms_by_tags := list_kms_by_tags quiet;
     list_keys := list_keys quiet;
     enable_key_rotation := enable_key_rotation quiet;
     disable_key_rotation := disable_key_rotation quiet;
     enable_key := enable_key quiet;
     disable_key := disable_key quiet;
     list_aliases := fun _ => listing;
     create_key := fun _ _ => key;
     create_alias := fun _ _ => alias;
     getObject := fun _ _ _ _ => object;
     uuid4_hex := uuid4_hex quiet;
     time_time := time_time quiet;
     json_obs_key_aliases := fun _ => json |}.

Definition a_and_b_listed : outcome ListAliasesResponse :=
  Ret {| la_body := [{| aliases := ["alias/a"; "alias/b"] |}] |}.

Definition key_created : outcome CreateKeyResponse :=
  Ret {| key_info := Some {| ki_key_id := "key-1" |} |}.

Definition manifest_found : outcome ObsResponse :=
  Ret {| status := 200; body_buffer := "manifest";
         errorCode := ""; errorMessage := "" |}.

Definition a_and_b : ActionData := {| key_aliases := Some ["a"; "b"]; obs_url := None |}.

Definition a_c_d : ActionData := {| key_aliases := Some ["a"; "c"; "d"]; obs_url := None |}.

(** One order in which the set {a, c, d} may be visited. *)
Definition in_order (s : gset string) : list string := ["a"; "c"; "d"].

End Fixtures.

Import Fixtures.

(** ** Lemmas on the Python operations *)

Example protocol_prefix_stripped : path_without_protocol "https://bucket1.obs.region1.example.com/path/to/kms.txt"
                 = "bucket1.obs.region1.example.com/path/to/kms.txt".
Proof. reflexivity. Qed.


Lemma has_field_lookup (r : record) k :
  has_field r k = true -> exists v, r !! k = Some v /\ hashable v = true.
Proof. unfold has_field. destruct (r !! k); [eauto | discriminate]. Qed.

Lemma eq_str_decide v s : eq_str v s = bool_decide (v = VStr s).
Proof.
  destruct v; simpl; try reflexivity.
  apply bool_decide_ext. split; congruence.
Qed.

Lemma in_strs_hashable v strs h :
  hashable v = true ->
  in_strs v strs h = (Ret (bool_decide (v ∈ VStr <$> strs)), h).
Proof.
  intros Hv. destruct v; simpl in *; try discriminate; unfold ret; do 2 f_equal.
  all: try (symmetry; apply bool_decide_eq_false;
            intros (s' & Heq & _)%list_elem_of_fmap; congruence).
  apply bool_decide_ext. rewrite list_elem_of_fmap. split.
  - intros H. eauto.
  - intros (s' & Heq & Hin). congruence.
Qed.

Ltac split_decide P D :=
  destruct (decide P) as [D|D];
  [ rewrite (bool_decide_eq_true_2 P D) | rewrite (bool_decide_eq_false_2 P D) ].

Lemma key_record_fields (r : record) :
  is_key_record r ->
  exists key_id flag spec store state,
    r !! "key_id" = Some key_id /\
    (r !! "default_key_flag" = Some flag /\ hashable flag = true) /\
    (r !! "key_spec" = Some spec /\ hashable spec = true) /\
    (r !! "keystore_id" = Some store /\ hashable store = true) /\
    (r !! "key_state" = Some state /\ hashable state = true).
Proof.
  unfold is_key_record. cbn [forallb]. rewrite !andb_true_iff.
  intros (F0 & F1 & F2 & F3 & F4 & _).
  apply has_field_lookup in F0 as (v0 & ? & ?), F1 as (v1 & ? & ?),
      F2 as (v2 & ? & ?), F3 as (v3 & ? & ?), F4 as (v4 & ? & ?).
  exists v0, v1, v2, v3, v4. repeat split; assumption.
Qed.

Lemma enable_condition_spec r h :
  is_key_record r ->
  rotationKey.condition r h = (Ret (bool_decide (enable_eligible r)), h).
Proof.
  intros (_ & v0 & v1 & v2 & v3 & _ & [E0 H0] & [E1 H1] & [E2 H2] & [E3 H3])%key_record_fields.
  unfold rotationKey.condition, and_then, getitem.
  unfold mbind, M_bind, bind.
  rewrite E0, E1, E2, E3. cbn [ret].
  rewrite !eq_str_decide.
  assert (Hno : forall b : bool, ~ enable_eligible r ->
            (Ret b, h) = (Ret false, h) ->
            (Ret b, h) = (Ret (bool_decide (enable_eligible r)), h)).
  { intros b Hn ->. by rewrite bool_decide_eq_false_2. }
  split_decide (v0 = VStr "0") D1;
    [subst v0 | apply Hno; [intros (? & _); congruence | done]].
  rewrite in_strs_hashable by done.
  split_decide (v1 ∈ VStr <$> rotationKey.supportList) D2;
    [ | apply Hno; [ | done]; intros (_ & [?|?] & _);
        apply D2; [replace v1 with (VStr "AES_256") by congruence
                  | replace v1 with (VStr "SM4") by congruence];
        cbn; rewrite !elem_of_cons; auto ].
  split_decide (v2 = VStr "0") D3;
    [subst v2 | apply Hno; [intros (_ & _ & ? & _); congruence | done]].
  rewrite in_strs_hashable by done.
  split_decide (v3 ∈ VStr <$> ["2"]) D4;
    [ | apply Hno; [ | done]; intros (_ & _ & _ & ?);
        apply D4; replace v3 with (VStr "2") by congruence;
        cbn; rewrite !elem_of_cons; auto ].
  unfold ret. do 2 f_equal. symmetry. apply bool_decide_eq_true.
  cbn in D2, D4.
  split; [done|]. split; [|split; [done|]].
  - apply elem_of_cons in D2 as [->|D2]; [auto|].
    apply list_elem_of_singleton in D2 as ->. auto.
  - apply list_elem_of_singleton in D4 as ->. done.
Qed.

Lemma disable_condition_true r h :
  disable_eligible r -> disableRotationKey.condition r h = (Ret true, h).
Proof.
  intros (E1 & E2 & E3 & E4).
  destruct (r !! "key_spec") as [v|] eqn:Es; [|done]. destruct E2 as [Hh Hn].
  unfold disableRotationKey.condition, and_then, getitem.
  unfold mbind, M_bind, bind.
  rewrite E1, Es, E3. cbn [ret eq_str]. rewrite !bool_decide_eq_true_2 by done.
  rewrite in_strs_hashable by done. rewrite (bool_decide_eq_false_2 _ Hn). cbn.
  destruct E4 as [-> | [-> | ->]]; reflexivity.
Qed.

(** Claim C3.  On a key record, [enable_key_rotation] issues its request
    exactly when the four eligibility predicates hold; otherwise it logs the
    skip and issues no request. *)
Theorem enable_rotation_calls_iff_eligible client (r : record) h :
  is_key_record r ->
  exists key_id emitted,
    r !! "key_id" = Some key_id /\
    (rotationKey.perform_action client r h).2 = h ++ emitted /\
    (enable_eligible r <-> api_calls emitted <> []) /\
    (enable_eligible r ->
       api_calls emitted =
         [enable_key_rotation_call
            {| ok_key_id := key_id; ok_sequence := uuid4_hex client h |}]) /\
    (~ enable_eligible r ->
       (rotationKey.perform_action client r h).1 = Ret tt /\
       emitted = [EvLog INFO rotationKey.skip_message [key_id]]).
Proof.
  intros Hrec.
  pose proof (enable_condition_spec r h Hrec) as Hcond.
  apply key_record_fields in Hrec as (key_id & _ & _ & _ & _ & Ek & _).
  exists key_id.
  unfold rotationKey.perform_action, getitem.
  unfold mbind, M_bind, bind. rewrite Ek. cbn [ret]. rewrite Hcond.
  destruct (decide (enable_eligible r)) as [Hel|Hel].
  - rewrite (bool_decide_eq_true_2 _ Hel).
    unfold uuid4, try_except, request, log_info, emit.
    assert (Hfin : forall (out : outcome unit) (evs : list Event) c,
              api_calls evs = [c] ->
              exists emitted,
                Some key_id = Some key_id /\
                (out, h ++ evs).2 = h ++ emitted /\
                (enable_eligible r <-> api_calls emitted <> []) /\
                (enable_eligible r -> api_calls emitted = [c]) /\
                (~ enable_eligible r ->
                   (out, h ++ evs).1 = Ret tt /\
                   emitted = [EvLog INFO rotationKey.skip_message [key_id]])).
    { intros out evs c Hc. exists evs. rewrite Hc.
      split; [done|]. split; [done|].
      split; [split; [done | by intros _] |].
      split; [done | by intros ?]. }
    destruct (enable_key_rotation client (h ++ [EvUuid]) _) as [[]|e] eqn:Hcall.
    + rewrite <- !app_assoc. by apply Hfin.
    + unfold rotationKey.handler, log_info, log_error, emit, raise.
      destruct e as [c ? ? ?|c ? ? ?|? ?]; cbn;
        try destruct (c =? 400); rewrite <- ?app_assoc; by apply Hfin.
  - rewrite (bool_decide_eq_false_2 _ Hel). unfold log_info, emit. cbn.
    eexists. split; [done|]. split; [done|]. cbn.
    split; [split; [done | by intros []] |]. by split.
Qed.

Lemma enable_rotation_calls_iff_eligible_witness :
  is_key_record aes_key /\
  exists key_id emitted,
    aes_key !! "key_id" = Some key_id /\
    (rotationKey.perform_action quiet aes_key []).2 = [] ++ emitted /\
    (enable_eligible aes_key <-> api_calls emitted <> []) /\
    (enable_eligible aes_key ->
       api_calls emitted =
         [enable_key_rotation_call
            {| ok_key_id := key_id; ok_sequence := uuid4_hex quiet [] |}]) /\
    (~ enable_eligible aes_key ->
       (rotationKey.perform_action quiet aes_key []).1 = Ret tt /\
       emitted = [EvLog INFO rotationKey.skip_message [key_id]]).
Proof.
  split; [reflexivity | apply (enable_rotation_calls_iff_eligible quiet aes_key []); reflexivity].
Defined.

Example enable_rotation_skips_rsa :
  rotationKey.perform_action quiet rsa_key []
  = (Ret tt, [EvLog INFO rotationKey.skip_message [VStr "k-aes"]]).
Proof. reflexivity. Qed.


(** Claim C5 as stated fails: a provider error with status 500 is swallowed
    too, the action returns normally after an error log. *)
Lemma enable_rotation_swallows_status_500 :
  exn_status_code unavailable = Some 500 /\
  enable_key_rotation (rotation_answers (Raise unavailable)) [EvUuid]
    {| ok_key_id := VStr "k-aes"; ok_sequence := uuid4_hex quiet [] |} = Raise unavailable /\
  rotationKey.perform_action (rotation_answers (Raise unavailable)) aes_key []
  = (Ret tt,
     [EvUuid;
      EvCall (enable_key_rotation_call
                {| ok_key_id := VStr "k-aes"; ok_sequence := uuid4_hex quiet [] |});
      EvLog ERROR rotationKey.failed_message [VStr "k-aes"]]).
Proof. repeat split. Qed.

(** Claim C5, amended.  [enable_key_rotation] swallows every provider error
    that carries a status code: status 400 is logged at info level as a
    benign signal, any other status at error level, and in both cases the
    action returns normally. *)
Theorem enable_rotation_swallows_every_status client (r : record) h key_id e c msg :
  is_key_record r ->
  enable_eligible r ->
  r !! "key_id" = Some key_id ->
  enable_key_rotation client (h ++ [EvUuid])
    {| ok_key_id := key_id; ok_sequence := uuid4_hex client h |} = Raise e ->
  exn_status_code e = Some c ->
  exn_error_msg e = Some msg ->
  rotationKey.perform_action client r h
  = (Ret tt,
     h ++ [EvUuid;
           EvCall (enable_key_rotation_call
                     {| ok_key_id := key_id; ok_sequence := uuid4_hex client h |});
           if c =? 400
           then EvLog INFO rotationKey.benign_message [key_id; VStr msg]
           else EvLog ERROR rotationKey.failed_message [key_id]]).
Proof.
  intros Hrec Hel Ek Hcall Hc Hmsg.
  unfold rotationKey.perform_action, getitem.
  unfold mbind, M_bind, bind. rewrite Ek. cbn [ret].
  rewrite (enable_condition_spec r h Hrec), (bool_decide_eq_true_2 _ Hel).
  unfold uuid4, try_except, request. rewrite Hcall.
  unfold rotationKey.handler. rewrite Hc, Hmsg.
  destruct (c =? 400); unfold log_info, log_error, emit;
    by rewrite <- !app_assoc.
Qed.

Lemma enable_rotation_swallows_every_status_witness :
  rotationKey.perform_action (rotation_answers (Raise forbidden)) aes_key []
  = (Ret tt,
     [] ++ [EvUuid;
           EvCall (enable_key_rotation_call
                     {| ok_key_id := VStr "k-aes";
                        ok_sequence := uuid4_hex (rotation_answers (Raise forbidden)) [] |});
           if 403 =? 400
           then EvLog INFO rotationKey.benign_message [VStr "k-aes"; VStr "access denied"]
           else EvLog ERROR rotationKey.failed_message [VStr "k-aes"]]).
Proof.
  apply (enable_rotation_swallows_every_status
           (rotation_answers (Raise forbidden)) aes_key [] (VStr "k-aes") forbidden 403
           "access denied"); try reflexivity.
  vm_compute. repeat split; auto.
Defined.


(** Claim C4.  On an eligible key record, an error raised by the
    [disable_key_rotation] request is raised again to the caller. *)
Theorem disable_rotation_propagates client (r : record) h key_id e :
  disable_eligible r ->
  r !! "key_id" = Some key_id ->
  disable_key_rotation client (h ++ [EvUuid])
    {| ok_key_id := key_id; ok_sequence := uuid4_hex client h |} = Raise e ->
  disableRotationKey.perform_action client r h
  = (Raise e,
     h ++ [EvUuid;
           EvCall (disable_key_rotation_call
                     {| ok_key_id := key_id; ok_sequence := uuid4_hex client h |})]).
Proof.
  intros Hel Ek Hcall.
  unfold disableRotationKey.perform_action, getitem.
  unfold mbind, M_bind, bind.
  rewrite (disable_condition_true r h Hel), Ek. cbn [ret].
  unfold uuid4, try_except, request, raise. rewrite Hcall.
  by rewrite <- !app_assoc.
Qed.

Lemma disable_rotation_propagates_witness :
  disableRotationKey.perform_action (rotation_answers (Raise unavailable)) aes_key []
  = (Raise unavailable,
     [] ++ [EvUuid;
           EvCall (disable_key_rotation_call
                     {| ok_key_id := VStr "k-aes";
                        ok_sequence := uuid4_hex (rotation_answers (Raise unavailable)) [] |})]).
Proof.
  apply (disable_rotation_propagates
           (rotation_answers (Raise unavailable)) aes_key [] (VStr "k-aes") unavailable);
    try reflexivity.
  vm_compute. repeat split; auto.
  intros H. repeat (apply elem_of_cons in H as [H|H]; [discriminate|]).
  by apply elem_of_nil in H.
Defined.

Lemma api_calls_app h1 h2 : api_calls (h1 ++ h2) = api_calls h1 ++ api_calls h2.
Proof. apply omap_app. Qed.

(** Claim C6 as stated fails: the server part keeps the ["obs."] label. *)
Lemma url_decomposition_stated_fails :
  ~ (get_obs_name (path_without_protocol url) = "bucket1" /\
     get_obs_server (path_without_protocol url) = Ret "region1.example.com" /\
     get_file_path (path_without_protocol url) = Ret "path/to/kms.txt").
Proof. intros (_ & Hserver & _). vm_compute in Hserver. discriminate. Qed.

(** Claim C6, amended.  For the example URL, [get_obs_name] returns
    ["bucket1"], [get_obs_server] returns ["obs.region1.example.com"] and
    [get_file_path] returns ["path/to/kms.txt"]. *)
Theorem url_decomposition :
  get_obs_name (path_without_protocol url) = "bucket1" /\
  get_obs_server (path_without_protocol url) = Ret "obs.region1.example.com" /\
  get_file_path (path_without_protocol url) = Ret "path/to/kms.txt".
Proof. repeat split. Qed.

(** Claim C9.  With an empty (or missing) [key_aliases] and no [obs_url],
    the action issues no request and returns the empty list. *)
Theorem process_without_input client set_iter h :
  let expected :=
    (Ret EmptyList, h ++ [EvLog ERROR "key_aliases or obs_url is required" []]) in
  createKey.process client set_iter {| key_aliases := Some []; obs_url := None |} h = expected /\
  createKey.process client set_iter {| key_aliases := None; obs_url := None |} h = expected /\
  api_calls expected.2 = api_calls h.
Proof.
  repeat split. cbn. rewrite api_calls_app. cbn. apply app_nil_r.
Qed.

Lemma split1_no_separator sep s :
  PyString.find sep s < 0 -> PyString.split1 sep s = [s].
Proof.
  intros H. unfold PyString.split1.
  destruct (PyString.find sep s <? 0) eqn:E; [done|]. apply Z.ltb_ge in E. lia.
Qed.

Lemma split1_first sep s : exists x, PyString.split1 sep s !! 0%nat = Some x.
Proof. unfold PyString.split1. destruct (_ <? 0); eauto. Qed.

Lemma process_not_early (data : ActionData) url0 :
  obs_url data = Some url0 ->
  bool_decide (default [] (key_aliases data) = []) && bool_decide (obs_url data = None) = false.
Proof. intros ->. rewrite andb_false_iff. right. by apply bool_decide_eq_false. Qed.

(** Claim C7, amended.  With a non-empty [obs_url]: a URL without a path
    segment after the last [".obs"] raises [IndexError]; a fetch answered
    with a status of 300 or more is logged and ends the action with an empty
    result, without raising and without any further request; a client
    request exception is logged and raised again. *)
Theorem manifest_failures client set_iter (data : ActionData) h url0 :
  obs_url data = Some url0 ->
  url0 <> "" ->
  let p := path_without_protocol url0 in
  (PyString.find "/" (PyString.slice_from p (PyString.rfind ".obs" p)) < 0 ->
   createKey.process client set_iter data h = (Raise IndexError, h)) /\
  (forall server file,
     get_obs_server p = Ret server ->
     get_file_path p = Ret file ->
     let fetch := EvCall (getObject_call server (get_obs_name p) file) in
     (forall resp,
        getObject client h server (get_obs_name p) file = Ret resp ->
        300 <= status resp ->
        createKey.process client set_iter data h
        = (Ret EmptyList,
           h ++ [fetch;
                 EvLog ERROR "get obs object failed: {}, {}"
                       [VStr (errorCode resp); VStr (errorMessage resp)]])) /\
     (forall status_code request_id error_code error_msg,
        let e := ClientRequestException status_code request_id error_code error_msg in
        getObject client h server (get_obs_name p) file = Raise e ->
        createKey.process client set_iter data h
        = (Raise e,
           h ++ [fetch;
                 EvLog ERROR (PyString.of_int status_code)
                       [VStr request_id; VStr error_code; VStr error_msg]]))).
Proof.
  intros Hurl Hne p.
  unfold createKey.process. rewrite (process_not_early data url0 Hurl), Hurl.
  rewrite (bool_decide_eq_true_2 _ Hne).
  unfold createKey.fetch_manifest. fold p.
  unfold mbind, M_bind, bind, lift.
  split.
  - intros Hfind. unfold get_file_path. fold p.
    rewrite (split1_no_separator _ _ Hfind). cbn.
    unfold get_obs_server. fold p. rewrite (split1_no_separator _ _ Hfind). done.
  - intros server file -> ->. cbn zeta. unfold try_except, request.
    split.
    + intros resp Hget Hst. rewrite Hget.
      destruct (status resp <? 300) eqn:E; [apply Z.ltb_lt in E; lia|].
      unfold log_error, emit, ret. cbn. by rewrite <- !app_assoc.
    + intros sc rid ec em Hget. rewrite Hget. unfold log_error, emit, raise. cbn.
      by rewrite <- !app_assoc.
Qed.

(** Claim C7 as stated fails: a fetch answered with status 404 ends the
    action with an empty result, not with an exception. *)
Lemma obs_status_404_does_not_raise :
  300 <= status not_found /\
  createKey.process (obs_answers (Ret not_found)) elements from_manifest []
  = (Ret EmptyList,
     [EvCall (getObject_call "obs.region1.example.com" "bucket1" "path/to/kms.txt");
      EvLog ERROR "get obs object failed: {}, {}"
            [VStr "NoSuchKey"; VStr "The specified key does not exist."]]).
Proof. split; [done | reflexivity]. Qed.

Lemma manifest_failures_witness :
  createKey.process quiet elements
    {| key_aliases := None; obs_url := Some "https://bucket1.obs.example.com" |} []
  = (Raise IndexError, []) /\
  createKey.process (obs_answers (Ret not_found)) elements from_manifest []
  = (Ret EmptyList,
     [] ++ [EvCall (getObject_call "obs.region1.example.com"
                      (get_obs_name (path_without_protocol url)) "path/to/kms.txt");
            EvLog ERROR "get obs object failed: {}, {}"
                  [VStr (errorCode not_found); VStr (errorMessage not_found)]]) /\
  createKey.process (obs_answers (Raise forbidden)) elements from_manifest []
  = (Raise forbidden,
     [] ++ [EvCall (getObject_call "obs.region1.example.com"
                      (get_obs_name (path_without_protocol url)) "path/to/kms.txt");
            EvLog ERROR (PyString.of_int 403)
                  [VStr "req-2"; VStr "KMS.0306"; VStr "access denied"]]).
Proof.
  split; [|split].
  - apply (manifest_failures quiet elements
             {| key_aliases := None; obs_url := Some "https://bucket1.obs.example.com" |}
             [] "https://bucket1.obs.example.com"); [reflexivity | discriminate | reflexivity].
  - eapply (manifest_failures (obs_answers (Ret not_found)) elements from_manifest [] url);
      [reflexivity | discriminate | reflexivity | reflexivity | reflexivity | vm_compute; discriminate].
  - eapply (manifest_failures (obs_answers (Raise forbidden)) elements from_manifest [] url);
      [reflexivity | discriminate | reflexivity | reflexivity | reflexivity].
Defined.

Lemma create_missing_present client (arr : gset string) alias h :
  alias ∈ arr -> createKey.create_missing client arr alias h = (Ret tt, h).
Proof.
  intros Hin. unfold createKey.create_missing.
  by rewrite (bool_decide_eq_true_2 _ Hin).
Qed.

Lemma bind_unit_ret (m : M unit) h : (m ;; ret tt) h = m h.
Proof.
  unfold mbind, M_bind, bind, ret. destruct (m h) as [[[]|e] h']; reflexivity.
Qed.

Lemma for_each_a_c client l h :
  l ≡ₚ ["a"; "c"] ->
  for_each l (createKey.create_missing client {["a"; "b"]}) h
  = createKey.create_missing client {["a"; "b"]} "c" h.
Proof.
  intros Hp.
  assert (Ha : "a" ∈ ({["a"; "b"]} : gset string)) by set_solver.
  assert (Hl : l = ["a"; "c"] \/ l = ["c"; "a"]).
  { apply Permutation_sym, Permutation_length_2_inv in Hp. exact Hp. }
  destruct Hl as [-> | ->]; cbn [for_each].
  - unfold mbind at 1, M_bind at 1, bind at 1.
    rewrite (create_missing_present _ _ _ _ Ha). apply bind_unit_ret.
  - unfold mbind at 1, M_bind at 1, bind at 1.
    destruct (createKey.create_missing client _ "c" h) as [[[]|e] h']; [|done].
    unfold mbind, M_bind, bind. by rewrite (create_missing_present _ _ _ _ Ha).
Qed.

Lemma process_a_c client set_iter (data : ActionData) h resp first :
  (forall s, set_iter s ≡ₚ elements s) ->
  obs_url data = None ->
  list_to_set (default [] (key_aliases data)) = ({["a"; "c"]} : gset string) ->
  list_aliases client h = Ret resp ->
  la_body resp !! 0%nat = Some first ->
  list_to_set (map (PyString.replace "alias/" "") (aliases first))
  = ({["a"; "b"]} : gset string) ->
  createKey.process client set_iter data h
  = (createKey.create_missing client {["a"; "b"]} "c" ;; ret NoneValue)
      (h ++ [EvCall list_aliases_call]).
Proof.
  intros Hiter Hurl Hdesired Hlist Hfirst Hexisting.
  unfold createKey.process.
  assert (Hne : default [] (key_aliases data) <> []).
  { intros Heq. rewrite Heq in Hdesired. cbn in Hdesired.
    assert (Hin : "a" ∈ (∅ : gset string)) by (rewrite Hdesired; set_solver).
    set_solver. }
  rewrite (bool_decide_eq_false_2 _ Hne), Hurl. cbn [andb].
  unfold mbind at 1, M_bind at 1, bind at 1. cbn [ret].
  unfold mbind at 1, M_bind at 1, bind at 1. unfold request at 1. rewrite Hlist.
  unfold mbind at 1, M_bind at 1, bind at 1. rewrite Hfirst. cbn [ret].
  rewrite Hexisting, Hdesired.
  assert (Hsize : size ({["a"; "c"]} : gset string) <> 0%nat).
  { intros Hz. apply size_empty_iff in Hz. set_solver. }
  rewrite (bool_decide_eq_true_2 _ Hsize).
  assert (Hperm : set_iter {["a"; "c"]} ≡ₚ ["a"; "c"]).
  { rewrite Hiter.
    rewrite elements_union_singleton by (intros ?%elem_of_singleton; discriminate).
    by rewrite elements_singleton. }
  unfold mbind at 1, M_bind at 1, bind at 1.
  rewrite (for_each_a_c client _ _ Hperm). reflexivity.
Qed.

(** Claim C8.  With existing aliases {a, b} and desired aliases {a, c}, the
    action creates one key and one alias, for ["c"], and issues no creation
    request for ["a"], whatever the order in which the set is visited. *)
Theorem creates_only_missing_alias client set_iter (data : ActionData) h resp first :
  (forall s, set_iter s ≡ₚ elements s) ->
  obs_url data = None ->
  list_to_set (default [] (key_aliases data)) = ({["a"; "c"]} : gset string) ->
  list_aliases client h = Ret resp ->
  la_body resp !! 0%nat = Some first ->
  list_to_set (map (PyString.replace "alias/" "") (aliases first))
  = ({["a"; "b"]} : gset string) ->
  let h1 := h ++ [EvCall list_aliases_call; EvTime] in
  let key_request :=
    {| ck_key_alias := PyString.of_int (time_time client (h ++ [EvCall list_aliases_call])) |} in
  (forall key_response info,
     create_key client h1 key_request = Ret key_response ->
     key_info key_response = Some info ->
     let alias_request := {| ca_key_id := ki_key_id info; ca_alias := "alias/c" |} in
     create_alias client (h1 ++ [EvCall (create_key_call key_request)]) alias_request = Ret tt ->
     createKey.process client set_iter data h
     = (Ret NoneValue,
        h1 ++ [EvCall (create_key_call key_request);
               EvCall (create_alias_call alias_request);
               EvSleep 1])) /\
  (exists emitted rest,
     (createKey.process client set_iter data h).2 = h ++ emitted /\
     api_calls emitted = [list_aliases_call; create_key_call key_request] ++ rest /\
     (rest = [] \/
      exists key_id, rest = [create_alias_call {| ca_key_id := key_id; ca_alias := "alias/c" |}])).
Proof.
  intros Hiter Hurl Hdesired Hlist Hfirst Hexisting h1 key_request.
  rewrite (process_a_c client set_iter data h resp first) by assumption.
  assert (Hc : "c" ∉ ({["a"; "b"]} : gset string)).
  { intros [?%elem_of_singleton | ?%elem_of_singleton]%elem_of_union; discriminate. }
  unfold createKey.create_missing. rewrite (bool_decide_eq_false_2 _ Hc).
  unfold mbind, M_bind, bind, now, try_except, request, sleep, emit, raise, ret.
  rewrite <- !app_assoc. cbn [app]. fold key_request. fold h1.
  split.
  - intros key_response info Hkey Hinfo Halias.
    subst h1 key_request. rewrite <- ?app_assoc in Halias. cbn [app] in Halias.
    rewrite Hkey, Hinfo. cbv beta iota.
    change ("alias/" +:+ "c") with "alias/c". rewrite Halias.
    by rewrite <- !app_assoc.
  - subst h1 key_request.
    assert (Hfin : forall (out : outcome process_result) evs rest,
              api_calls evs = [list_aliases_call;
                               create_key_call
                                 {| ck_key_alias :=
                                      PyString.of_int
                                        (time_time client (h ++ [EvCall list_aliases_call])) |}]
                              ++ rest ->
              (rest = [] \/
               exists key_id,
                 rest = [create_alias_call {| ca_key_id := key_id; ca_alias := "alias/c" |}]) ->
              exists emitted rest,
                (out, h ++ evs).2 = h ++ emitted /\
                api_calls emitted
                = [list_aliases_call;
                   create_key_call
                     {| ck_key_alias :=
                          PyString.of_int
                            (time_time client (h ++ [EvCall list_aliases_call])) |}]
                  ++ rest /\
                (rest = [] \/
                 exists key_id,
                   rest = [create_alias_call {| ca_key_id := key_id; ca_alias := "alias/c" |}])).
    { intros out evs rest Hcalls Hrest. exists evs, rest. auto. }
    destruct (create_key client _ _) as [key_response|e].
    + destruct (key_info key_response) as [info|].
      * rewrite <- ?app_assoc. cbn [app].
        destruct (create_alias client _ _) as [[]|e]; rewrite <- ?app_assoc; cbn [app].
        -- eapply Hfin; [reflexivity | right; eexists; reflexivity].
        -- eapply Hfin; [reflexivity | right; eexists; reflexivity].
      * eapply Hfin; [reflexivity | by left].
    + eapply Hfin; [reflexivity | by left].
Qed.

Lemma creates_only_missing_alias_witness :
  createKey.process (with_aliases ["alias/a"; "alias/b"]) elements a_and_c []
  = (Ret NoneValue,
     [EvCall list_aliases_call; EvTime;
      EvCall (create_key_call {| ck_key_alias := "1762214400" |});
      EvCall (create_alias_call {| ca_key_id := "key-1"; ca_alias := "alias/c" |});
      EvSleep 1]).
Proof.
  destruct (creates_only_missing_alias
              (with_aliases ["alias/a"; "alias/b"]) elements a_and_c []
              {| la_body := [{| aliases := ["alias/a"; "alias/b"] |}] |}
              {| aliases := ["alias/a"; "alias/b"] |}) as [Hcreated _].
  - intros s. reflexivity.
  - reflexivity.
  - cbn. by rewrite (right_id_L ∅ (∪)).
  - reflexivity.
  - reflexivity.
  - change (list_to_set ["a"; "b"] = ({["a"; "b"]} : gset string)).
    cbn. by rewrite (right_id_L ∅ (∪)).
  - exact (Hcreated {| key_info := Some {| ki_key_id := "key-1" |} |}
                    {| ki_key_id := "key-1" |} eq_refl eq_refl eq_refl).
Defined.

(** ** Enumeration *)

Section Enumeration.

Variable client : Provider.

Lemma tag_loop_failure fuel offset dict h e :
  list_kms_by_tags client h (tag_request offset) = Raise e ->
  Kms.tag_loop client (S fuel) offset dict h
  = Some (dict, h ++ [EvCall (list_kms_by_tags_call (tag_request offset)); query_failed e]).
Proof. intros Hcall. cbn. rewrite Hcall. by rewrite <- app_assoc. Qed.

Lemma tag_loop_pages n : forall fuel offset dict h offset' dict' h',
  pages client n (offset, dict, h) (offset', dict', h') ->
  Kms.tag_loop client (n + fuel) offset dict h = Kms.tag_loop client fuel offset' dict' h'.
Proof.
  induction n as [|n IH]; intros fuel offset dict h offset' dict' h' Hp.
  - inversion Hp; subst. reflexivity.
  - inversion Hp as [|? ? ? ? resp rs ? Hcall Hres Hcount Hlen Hrest]; subst.
    cbn [Nat.add Kms.tag_loop]. rewrite Hcall, Hres, Hcount. cbn [orb].
    destruct (Z.of_nat (length rs) <=? offset + limit) eqn:E;
      [apply Z.leb_le in E; lia|].
    by apply IH.
Qed.

Lemma list_and_merge_ok dict h response details :
  list_keys client h keys_request = Ret response ->
  key_details response = Some details ->
  Kms.list_and_merge client dict h
  = (Ret (map (Kms.merge_detail dict) details), h ++ [EvCall (list_keys_call keys_request)]).
Proof.
  intros Hcall Hdetails. unfold Kms.list_and_merge, try_except, request.
  unfold mbind, M_bind, bind. by rewrite Hcall, Hdetails.
Qed.

Lemma list_and_merge_raises dict h e :
  list_keys client h keys_request = Raise e ->
  Kms.list_and_merge client dict h
  = (Raise e, h ++ [EvCall (list_keys_call keys_request); query_failed e]).
Proof.
  intros Hcall. unfold Kms.list_and_merge, try_except, request.
  unfold mbind, M_bind, bind. rewrite Hcall.
  unfold emit, raise. by rewrite <- app_assoc.
Qed.

End Enumeration.

(** Claim C1.  During enumeration, a tag request that fails after any
    number of successful pages leaves the loop with the tags collected so
    far, and enumeration goes on to list the keys and merge them with those
    tags; a key listing that fails is logged and its exception is raised
    to the caller. *)
Theorem tag_failure_degrades_key_failure_aborts client :
  (forall n fuel h offset dict h1 e,
     pages client n (0, ∅, h) (offset, dict, h1) ->
     (n < fuel)%nat ->
     list_kms_by_tags client h1 (tag_request offset) = Raise e ->
     let h2 := h1 ++ [EvCall (list_kms_by_tags_call (tag_request offset)); query_failed e] in
     Kms.get_api_resources client fuel h = Some (Kms.list_and_merge client dict h2) /\
     (forall response details,
        list_keys client h2 keys_request = Ret response ->
        key_details response = Some details ->
        Kms.get_api_resources client fuel h
        = Some (Ret (map (Kms.merge_detail dict) details),
                h2 ++ [EvCall (list_keys_call keys_request)]))) /\
  (forall fuel h dict h1 e,
     Kms.tag_loop client fuel 0 ∅ h = Some (dict, h1) ->
     list_keys client h1 keys_request = Raise e ->
     Kms.get_api_resources client fuel h
     = Some (Raise e, h1 ++ [EvCall (list_keys_call keys_request); query_failed e])).
Proof.
  split.
  - intros n fuel h offset dict h1 e Hpages Hfuel Hcall h2.
    assert (Hloop : Kms.tag_loop client fuel 0 ∅ h = Some (dict, h2)).
    { replace fuel with (n + S (fuel - S n))%nat by lia.
      rewrite (tag_loop_pages client n _ _ _ _ _ _ _ Hpages).
      by apply tag_loop_failure. }
    unfold Kms.get_api_resources. rewrite Hloop. split; [done|].
    intros response details Hkeys Hdetails.
    by rewrite (list_and_merge_ok client dict h2 response details).
  - intros fuel h dict h1 e Hloop Hkeys.
    unfold Kms.get_api_resources. rewrite Hloop.
    by rewrite (list_and_merge_raises client dict h1 e).
Qed.

Lemma list_and_merge_emits client dict h :
  exists out emitted,
    Kms.list_and_merge client dict h = (out, h ++ emitted) /\
    filter is_tag_call (api_calls emitted) = [].
Proof.
  unfold Kms.list_and_merge, try_except, request, emit, raise.
  unfold mbind, M_bind, bind.
  destruct (list_keys client h _) as [response|e].
  - destruct (key_details response); cbn; rewrite <- ?app_assoc; eauto.
  - cbn. rewrite <- ?app_assoc. eauto.
Qed.

(** Claim C10.  When the first tag response has a falsy [total_count] or at
    most 1000 resources, the tag loop ends after that one iteration, and
    enumeration issues exactly one tag request. *)
Theorem single_tag_request client fuel h responseTag tagResources :
  list_kms_by_tags client h (tag_request 0) = Ret responseTag ->
  resources responseTag = Some tagResources ->
  falsy_count (total_count responseTag) = true \/ (length tagResources <= 1000)%nat ->
  Kms.tag_loop client (S fuel) 0 ∅ h
  = Some (store_tags ∅ tagResources,
          h ++ [EvCall (list_kms_by_tags_call (tag_request 0))]) /\
  exists out emitted,
    Kms.get_api_resources client (S fuel) h = Some (out, h ++ emitted) /\
    filter is_tag_call (api_calls emitted) = [list_kms_by_tags_call (tag_request 0)].
Proof.
  intros Hcall Hres Hstop.
  assert (Hloop : Kms.tag_loop client (S fuel) 0 ∅ h
                  = Some (store_tags ∅ tagResources,
                          h ++ [EvCall (list_kms_by_tags_call (tag_request 0))])).
  { cbn [Kms.tag_loop]. rewrite Hcall, Hres.
    destruct Hstop as [-> | Hlen]; [done|].
    replace (Z.of_nat (length tagResources) <=? 0 + limit) with true;
      [by rewrite orb_true_r|].
    symmetry. apply Z.leb_le. unfold limit. lia. }
  split; [exact Hloop|].
  unfold Kms.get_api_resources. rewrite Hloop.
  destruct (list_and_merge_emits client (store_tags ∅ tagResources)
              (h ++ [EvCall (list_kms_by_tags_call (tag_request 0))]))
    as (out & emitted & -> & Hnone).
  exists out, ([EvCall (list_kms_by_tags_call (tag_request 0))] ++ emitted).
  split; [by rewrite app_assoc|].
  rewrite api_calls_app, filter_app, Hnone. reflexivity.
Qed.

(** Claim C2.  Every record that enumeration produces has an ["id"] equal
    to its ["key_id"], and when the key is absent from the collected tag
    map its ["tags"] field is the empty list. *)
Theorem merged_records_invariant client fuel h records h' :
  Kms.get_api_resources client fuel h = Some (Ret records, h') ->
  exists dict h1,
    Kms.tag_loop client fuel 0 ∅ h = Some (dict, h1) /\
    Forall (fun r : record =>
              exists key_id,
                r !! "key_id" = Some (VStr key_id) /\
                r !! "id" = r !! "key_id" /\
                (dict !! key_id = None -> r !! "tags" = Some (VTags [])))
           records.
Proof.
  unfold Kms.get_api_resources.
  destruct (Kms.tag_loop client fuel 0 ∅ h) as [[dict h1]|]; [|discriminate].
  intros Hmerge. exists dict, h1. split; [reflexivity|].
  unfold Kms.list_and_merge, try_except, request, emit, raise in Hmerge.
  unfold mbind, M_bind, bind in Hmerge.
  destruct (list_keys client h1 _) as [response|e]; [|discriminate].
  destruct (key_details response) as [details|]; [|discriminate].
  injection Hmerge as <- _.
  apply Forall_map, Forall_forall. intros detail _.
  exists (kd_key_id detail). unfold Kms.merge_detail, to_dict.
  rewrite lookup_insert_eq.
  rewrite !(lookup_insert_ne _ _ "key_id") by done.
  rewrite lookup_insert_eq. split; [done|]. split; [done|].
  intros Habsent. rewrite lookup_insert_ne by done.
  rewrite lookup_insert_eq, Habsent. reflexivity.
Qed.

Lemma tag_failure_degrades_key_failure_aborts_witness :
  Kms.get_api_resources
    (listing second_page_fails (Ret {| key_details := Some two_details |})) 2 []
  = Some (Ret (map (Kms.merge_detail (store_tags ∅ long_page)) two_details),
          ([first_tag_call]
             ++ [EvCall (list_kms_by_tags_call (tag_request 1000)); query_failed unavailable])
            ++ [keys_call]) /\
  Kms.get_api_resources (listing (list_kms_by_tags quiet) (Raise forbidden)) 1 []
  = Some (Raise forbidden, [first_tag_call] ++ [keys_call; query_failed forbidden]).
Proof.
  split.
  - destruct (tag_failure_degrades_key_failure_aborts
                (listing second_page_fails (Ret {| key_details := Some two_details |})))
      as [Htags _].
    destruct (Htags 1%nat 2%nat [] 1000 (store_tags ∅ long_page) [first_tag_call] unavailable)
      as [_ Hkeys].
    + eapply pages_next;
        [reflexivity | reflexivity | reflexivity | vm_compute; reflexivity | apply pages_done].
    + lia.
    + reflexivity.
    + apply (Hkeys {| key_details := Some two_details |} two_details); reflexivity.
  - destruct (tag_failure_degrades_key_failure_aborts
                (listing (list_kms_by_tags quiet) (Raise forbidden))) as [_ Hkeys].
    apply (Hkeys 1%nat [] ∅ [first_tag_call] forbidden); reflexivity.
Defined.

Lemma single_tag_request_witness :
  Kms.tag_loop (listing short_page (Ret {| key_details := Some two_details |})) 5 0 ∅ []
  = Some (store_tags ∅ [tagged "k-aes"], [] ++ [first_tag_call]) /\
  exists out emitted,
    Kms.get_api_resources
      (listing short_page (Ret {| key_details := Some two_details |})) 5 []
    = Some (out, [] ++ emitted) /\
    filter is_tag_call (api_calls emitted) = [list_kms_by_tags_call (tag_request 0)].
Proof.
  apply (single_tag_request
           (listing short_page (Ret {| key_details := Some two_details |})) 4 []
           {| resources := Some [tagged "k-aes"]; total_count := Some 2500 |}
           [tagged "k-aes"]); [reflexivity | reflexivity | right; cbn; lia].
Defined.

Lemma merged_records_invariant_witness :
  exists dict h1,
    Kms.tag_loop (listing short_page (Ret {| key_details := Some two_details |})) 1 0 ∅ []
    = Some (dict, h1) /\
    Forall (fun r : record =>
              exists key_id,
                r !! "key_id" = Some (VStr key_id) /\
                r !! "id" = r !! "key_id" /\
                (dict !! key_id = None -> r !! "tags" = Some (VTags [])))
           (map (Kms.merge_detail (store_tags ∅ [tagged "k-aes"])) two_details).
Proof.
  apply (merged_records_invariant
           (listing short_page (Ret {| key_details := Some two_details |})) 1 []
           (map (Kms.merge_detail (store_tags ∅ [tagged "k-aes"])) two_details)
           [first_tag_call; keys_call]).
  reflexivity.
Defined.

Example untagged_key_gets_empty_list :
  (Kms.merge_detail (store_tags ∅ [tagged "k-aes"])
     {| kd_key_id := "k-rsa"; kd_attrs := rsa_key |}) !! "tags" = Some (VTags []) /\
  (Kms.merge_detail (store_tags ∅ [tagged "k-aes"])
     {| kd_key_id := "k-aes"; kd_attrs := aes_key |}) !! "tags" = Some (VTags [env_tag]).
Proof. split; reflexivity. Qed.

(** ** Further properties of enumeration *)

Lemma merge_detail_key_id dict detail :
  Kms.merge_detail dict detail !! "key_id" = Some (VStr (kd_key_id detail)).
Proof.
  unfold Kms.merge_detail, to_dict.
  rewrite !(lookup_insert_ne _ _ "key_id") by done. apply lookup_insert_eq.
Qed.

Lemma select_resources_filter resource_ids (records : list record) h :
  Forall (fun r : record => is_Some (r !! "key_id")) records ->
  Kms.select_resources resource_ids records h
  = (Ret (List.filter (selected_by resource_ids) records), h).
Proof.
  induction 1 as [|r records [v Hv] _ IH]; [reflexivity|].
  cbn [Kms.select_resources List.filter]. unfold getitem, selected_by at 1.
  unfold mbind, M_bind, bind in *. rewrite Hv. cbn [ret]. rewrite IH.
  unfold ret. by destruct (Kms.in_ids v resource_ids).
Qed.

Lemma enumerated_have_key_id client fuel h records h' :
  Kms.get_api_resources client fuel h = Some (Ret records, h') ->
  Forall (fun r : record => is_Some (r !! "key_id")) records.
Proof.
  unfold Kms.get_api_resources.
  destruct (Kms.tag_loop client fuel 0 ∅ h) as [[dict h1]|]; [|discriminate].
  unfold Kms.list_and_merge, try_except, request, emit, raise.
  unfold mbind, M_bind, bind.
  destruct (list_keys client h1 _) as [response|e]; [|discriminate].
  destruct (key_details response) as [details|]; [|discriminate].
  intros [= <- _]. apply Forall_map, Forall_forall. intros detail _.
  rewrite merge_detail_key_id. eauto.
Qed.

(** Extra X1.  [get_resources] returns, in enumeration order, exactly the
    enumerated records whose key id is among the ids asked for; it issues
    the same requests as enumeration, raises what enumeration raises and
    never raises a [KeyError] of its own. *)
Theorem get_resources_filters_enumeration client resource_ids fuel h :
  match Kms.get_api_resources client fuel h with
  | Some (Ret records, h') =>
      Kms.get_resources client resource_ids fuel h
      = Some (Ret (List.filter (selected_by resource_ids) records), h')
  | other => Kms.get_resources client resource_ids fuel h = other
  end.
Proof.
  unfold Kms.get_resources.
  destruct (Kms.get_api_resources client fuel h) as [[[records|e] h']|] eqn:Henum;
    try reflexivity.
  f_equal. apply select_resources_filter. by eapply enumerated_have_key_id.
Qed.

Lemma store_tags_snoc dict tagResources r :
  store_tags dict (tagResources ++ [r])
  = <[ar_resource_id r := tags_value (ar_tags r)]> (store_tags dict tagResources).
Proof. unfold store_tags. by rewrite foldl_snoc. Qed.

(** Extra X2.  After a tag page is stored, the tags recorded for a key are
    those of the last entry of the page about that key; keys the page does
    not mention keep what was collected before. *)
Theorem store_tags_last_write_wins dict tagResources id :
  store_tags dict tagResources !! id
  = match last_entry id tagResources with
    | Some r => Some (tags_value (ar_tags r))
    | None => dict !! id
    end.
Proof.
  induction tagResources as [|r tagResources IH] using rev_ind; [reflexivity|].
  rewrite store_tags_snoc. unfold last_entry in *. rewrite List.filter_app.
  cbn [List.filter]. case_bool_decide as Hid.
  - rewrite last_snoc. subst id. by rewrite lookup_insert_eq.
  - rewrite app_nil_r, lookup_insert_ne by done. exact IH.
Qed.

Lemma tag_loop_more_fuel client fuel : forall k offset dict h r,
  Kms.tag_loop client fuel offset dict h = Some r ->
  Kms.tag_loop client (fuel + k) offset dict h = Some r.
Proof.
  induction fuel as [|fuel IH]; intros k offset dict h r; [discriminate|].
  cbn [Nat.add Kms.tag_loop].
  destruct (list_kms_by_tags client h _) as [resp|e]; [|done].
  destruct (resources resp) as [rs|]; [|done].
  destruct (_ || _); [done|]. apply IH.
Qed.

Theorem enumeration_stable_under_fuel client fuel k h r :
  Kms.get_api_resources client fuel h = Some r ->
  Kms.get_api_resources client (fuel + k) h = Some r.
Proof.
  unfold Kms.get_api_resources.
  destruct (Kms.tag_loop client fuel 0 ∅ h) as [[dict h1]|] eqn:Hloop; [|discriminate].
  intros Hr. by rewrite (tag_loop_more_fuel client fuel k _ _ _ _ Hloop).
Qed.

Lemma tag_loop_terminates client (bound : nat) :
  (forall h request response tagResources,
     list_kms_by_tags client h request = Ret response ->
     resources response = Some tagResources ->
     (length tagResources <= bound)%nat) ->
  forall fuel offset dict h,
    (0 < fuel)%nat ->
    Z.of_nat bound <= offset + limit * Z.of_nat fuel ->
    is_Some (Kms.tag_loop client fuel offset dict h).
Proof.
  intros Hbound fuel. induction fuel as [|fuel IH]; intros offset dict h Hpos Hle; [lia|].
  cbn [Kms.tag_loop].
  destruct (list_kms_by_tags client h _) as [resp|e] eqn:Hcall; [|eauto].
  destruct (resources resp) as [rs|] eqn:Hres; [|eauto].
  destruct (falsy_count _); [cbn; eauto|]. cbn [orb].
  destruct (Z.of_nat (length rs) <=? offset + limit) eqn:E; [eauto|].
  apply Z.leb_gt in E. pose proof (Hbound _ _ _ _ Hcall Hres) as Hlen.
  unfold limit in *. apply IH; lia.
Qed.

(** Extra X3.  When no tag response carries more than [bound] resources,
    the tag loop leaves after at most [bound / 1000 + 1] iterations, so
    enumeration returns or raises. *)
Theorem enumeration_terminates client (bound : nat) h :
  (forall h request response tagResources,
     list_kms_by_tags client h request = Ret response ->
     resources response = Some tagResources ->
     (length tagResources <= bound)%nat) ->
  is_Some (Kms.get_api_resources client (S (bound / 1000)) h).
Proof.
  intros Hbound.
  destruct (tag_loop_terminates client bound Hbound (S (bound / 1000)) 0 ∅ h)
    as [[dict h1] Hloop].
  - lia.
  - unfold limit. pose proof (Nat.div_mod_eq bound 1000) as Hdiv.
    pose proof (Nat.mod_upper_bound bound 1000). lia.
  - unfold Kms.get_api_resources. rewrite Hloop. eauto.
Qed.

(** Extra X4.  A key listing whose response has no [key_details] makes
    enumeration log the failure and raise [TypeError]. *)
Theorem missing_key_details_is_fatal client fuel h dict h1 response :
  Kms.tag_loop client fuel 0 ∅ h = Some (dict, h1) ->
  list_keys client h1 keys_request = Ret response ->
  key_details response = None ->
  Kms.get_api_resources client fuel h
  = Some (Raise TypeError,
          h1 ++ [EvCall (list_keys_call keys_request); query_failed TypeError]).
Proof.
  intros Hloop Hcall Hnone. unfold Kms.get_api_resources. rewrite Hloop.
  unfold Kms.list_and_merge, try_except, request, emit, raise.
  unfold mbind, M_bind, bind. rewrite Hcall, Hnone. by rewrite <- app_assoc.
Qed.

(** Extra X5.  When the first tag request fails, or its response has no
    resources list, enumeration still returns one record per listed key and
    every record has the empty tag list. *)
Theorem unusable_first_page_leaves_tags_empty client fuel h details response :
  (exists e, list_kms_by_tags client h (tag_request 0) = Raise e) \/
  (exists responseTag,
     list_kms_by_tags client h (tag_request 0) = Ret responseTag /\
     resources responseTag = None) ->
  (forall h1, list_keys client h1 keys_request = Ret response) ->
  key_details response = Some details ->
  exists records h',
    Kms.get_api_resources client (S fuel) h = Some (Ret records, h') /\
    length records = length details /\
    Forall (fun r : record => r !! "tags" = Some (VTags [])) records.
Proof.
  intros Hfirst Hkeys Hdetails.
  assert (Hloop : exists h1, Kms.tag_loop client (S fuel) 0 ∅ h = Some (∅, h1)).
  { cbn [Kms.tag_loop].
    destruct Hfirst as [[e ->] | (responseTag & -> & ->)]; eauto. }
  destruct Hloop as [h1 Hloop].
  exists (map (Kms.merge_detail ∅) details), (h1 ++ [EvCall (list_keys_call keys_request)]).
  split; [|split].
  - unfold Kms.get_api_resources. rewrite Hloop.
    unfold Kms.list_and_merge, try_except, request.
    unfold mbind, M_bind, bind. by rewrite Hkeys, Hdetails.
  - apply length_map.
  - apply Forall_map, Forall_forall. intros detail _.
    unfold Kms.merge_detail. by rewrite lookup_insert_ne, lookup_insert_eq.
Qed.

(** Extra X6.  The merged records follow the order of the key listing, one
    per key detail; each takes its ["id"] from the key id and its ["tags"]
    from the collected map (empty list by default), and keeps every other
    attribute of the detail. *)
Theorem merge_follows_provider_order client fuel h dict h1 response details :
  Kms.tag_loop client fuel 0 ∅ h = Some (dict, h1) ->
  list_keys client h1 keys_request = Ret response ->
  key_details response = Some details ->
  exists records,
    Kms.get_api_resources client fuel h
    = Some (Ret records, h1 ++ [EvCall (list_keys_call keys_request)]) /\
    length records = length details /\
    forall (i : nat) detail,
      details !! i = Some detail ->
      exists r : record,
        records !! i = Some r /\
        r !! "id" = Some (VStr (kd_key_id detail)) /\
        r !! "tags" = Some (default (VTags []) (dict !! kd_key_id detail)) /\
        forall k, k <> "id" -> k <> "tags" -> k <> "key_id" ->
                  r !! k = kd_attrs detail !! k.
Proof.
  intros Hloop Hcall Hdetails.
  exists (map (Kms.merge_detail dict) details). split; [|split].
  - unfold Kms.get_api_resources. rewrite Hloop.
    unfold Kms.list_and_merge, try_except, request.
    unfold mbind, M_bind, bind. by rewrite Hcall, Hdetails.
  - apply length_map.
  - intros i detail Hi. exists (Kms.merge_detail dict detail).
    split; [by rewrite list_lookup_fmap, Hi|].
    unfold Kms.merge_detail, to_dict.
    split; [by rewrite lookup_insert_eq|].
    split; [by rewrite lookup_insert_ne, lookup_insert_eq|].
    intros k H1 H2 H3. by rewrite !lookup_insert_ne.
Qed.

Example get_resources_selects_one :
  exists r h',
    Kms.get_resources one_page ["k-rsa"; "k-unknown"] 1 [] = Some (Ret [r], h') /\
    r !! "id" = Some (VStr "k-rsa").
Proof. eexists _, _. split; reflexivity. Qed.

Lemma enumeration_stable_under_fuel_witness :
  Kms.get_api_resources one_page (1 + 7) []
  = Some (Kms.list_and_merge one_page (store_tags ∅ [tagged "k-aes"]) [first_tag_call]).
Proof.
  apply (enumeration_stable_under_fuel one_page 1 7 []). reflexivity.
Defined.

Lemma enumeration_terminates_witness :
  is_Some (Kms.get_api_resources one_page (S (1 / 1000)) []).
Proof.
  apply (enumeration_terminates one_page 1 []).
  intros h request response tagResources [= <-] [= <-]. cbn. lia.
Defined.

Lemma missing_key_details_is_fatal_witness :
  Kms.get_api_resources no_details 1 []
  = Some (Raise TypeError,
          [first_tag_call] ++ [EvCall (list_keys_call keys_request); query_failed TypeError]).
Proof.
  apply (missing_key_details_is_fatal no_details 1 [] ∅ [first_tag_call]
           {| key_details := None |}); reflexivity.
Defined.

Lemma unusable_first_page_leaves_tags_empty_witness :
  exists records h',
    Kms.get_api_resources tags_down 1 [] = Some (Ret records, h') /\
    length records = length two_details /\
    Forall (fun r : record => r !! "tags" = Some (VTags [])) records.
Proof.
  apply (unusable_first_page_leaves_tags_empty tags_down 0 [] two_details
           {| key_details := Some two_details |});
    [left; eexists; reflexivity | reflexivity | reflexivity].
Defined.

Lemma merge_follows_provider_order_witness :
  exists records,
    Kms.get_api_resources one_page 1 []
    = Some (Ret records, [first_tag_call] ++ [EvCall (list_keys_call keys_request)]) /\
    length records = length two_details /\
    forall (i : nat) detail,
      two_details !! i = Some detail ->
      exists r : record,
        records !! i = Some r /\
        r !! "id" = Some (VStr (kd_key_id detail)) /\
        r !! "tags"
        = Some (default (VTags []) (store_tags ∅ [tagged "k-aes"] !! kd_key_id detail)) /\
        forall k, k <> "id" -> k <> "tags" -> k <> "key_id" ->
                  r !! k = kd_attrs detail !! k.
Proof.
  apply (merge_follows_provider_order one_page 1 [] (store_tags ∅ [tagged "k-aes"])
           [first_tag_call] {| key_details := Some two_details |} two_details);
    reflexivity.
Defined.

(** ** Further properties of the rotation actions *)

Lemma disable_condition_false r h :
  is_key_record r -> ~ disable_eligible r ->
  disableRotationKey.condition r h = (Ret false, h).
Proof.
  intros (_ & v0 & v1 & v2 & v3 & _ & [E0 H0] & [E1 H1] & [E2 H2] & [E3 H3])%key_record_fields
         Hno.
  unfold disable_eligible in Hno. rewrite E0, E1, E2, E3 in Hno.
  unfold disableRotationKey.condition, and_then, getitem.
  unfold mbind, M_bind, bind.
  rewrite E0, E1, E2, E3. cbn [ret]. rewrite !eq_str_decide.
  split_decide (v0 = VStr "0") D1; [subst v0 | done].
  cbv beta iota. rewrite (in_strs_hashable v1 _ h H1).
  split_decide (v1 ∈ VStr <$> disableRotationKey.notSupportList) D2; [done|].
  unfold ret. cbn [negb]. cbv beta iota.
  split_decide (v2 = VStr "0") D3; [subst v2 | done].
  cbv beta iota. rewrite (in_strs_hashable v3 _ h H3).
  split_decide (v3 ∈ VStr <$> ["2"; "3"; "4"]) D4; [|done].
  exfalso. apply Hno. split; [done|]. split; [done|]. split; [done|].
  cbn in D4. rewrite !elem_of_cons in D4.
  destruct D4 as [-> | [-> | [-> | []%elem_of_nil]]]; auto.
Qed.

(** Extra X7.  On a key record, [disable_key_rotation] never logs: an
    eligible key gives one request, an ineligible key gives no event at all
    and the action returns normally. *)
Theorem disable_rotation_is_silent client (r : record) h :
  is_key_record r ->
  exists key_id emitted,
    r !! "key_id" = Some key_id /\
    (disableRotationKey.perform_action client r h).2 = h ++ emitted /\
    (disable_eligible r ->
       emitted = [EvUuid;
                  EvCall (disable_key_rotation_call
                            {| ok_key_id := key_id; ok_sequence := uuid4_hex client h |})]) /\
    (~ disable_eligible r ->
       (disableRotationKey.perform_action client r h).1 = Ret tt /\ emitted = []).
Proof.
  intros Hrec.
  destruct (key_record_fields r Hrec) as (key_id & _ & _ & _ & _ & Ek & _).
  exists key_id.
  destruct (decide (disable_eligible r)) as [Hel|Hel].
  - exists [EvUuid;
            EvCall (disable_key_rotation_call
                      {| ok_key_id := key_id; ok_sequence := uuid4_hex client h |})].
    split; [done|]. split; [|split; [done | intros Hn; destruct (Hn Hel)]].
    unfold disableRotationKey.perform_action.
    unfold mbind at 1, M_bind at 1, bind at 1.
    rewrite (disable_condition_true r h Hel).
    unfold getitem, uuid4, try_except, request, raise.
    unfold mbind, M_bind, bind. rewrite Ek. cbn [ret].
    destruct (disable_key_rotation client _ _) as [[]|e]; by rewrite <- app_assoc.
  - assert (Hrun : disableRotationKey.perform_action client r h = (Ret tt, h)).
    { unfold disableRotationKey.perform_action.
      unfold mbind, M_bind, bind.
      by rewrite (disable_condition_false r h Hrec Hel). }
    rewrite Hrun. exists [].
    split; [done|]. split; [by rewrite app_nil_r|].
    split; [intros He; destruct (Hel He) | done].
Qed.

(** Extra X8.  On an eligible key record, a successful
    [enable_key_rotation] request is followed by one info log and the action
    returns normally. *)
Theorem enable_rotation_success client (r : record) h key_id :
  is_key_record r ->
  enable_eligible r ->
  r !! "key_id" = Some key_id ->
  enable_key_rotation client (h ++ [EvUuid])
    {| ok_key_id := key_id; ok_sequence := uuid4_hex client h |} = Ret tt ->
  rotationKey.perform_action client r h
  = (Ret tt,
     h ++ [EvUuid;
           EvCall (enable_key_rotation_call
                     {| ok_key_id := key_id; ok_sequence := uuid4_hex client h |});
           EvLog INFO rotationKey.success_message [key_id]]).
Proof.
  intros Hrec Hel Ek Hcall.
  unfold rotationKey.perform_action, getitem.
  unfold mbind, M_bind, bind. rewrite Ek. cbn [ret].
  rewrite (enable_condition_spec r h Hrec), (bool_decide_eq_true_2 _ Hel).
  unfold uuid4, try_except, request. rewrite Hcall.
  unfold log_info, emit. by rewrite <- !app_assoc.
Qed.

(** Extra X9.  On a key record, [enable_key_rotation] raises only when the
    provider raised an exception without a status code, and then it raises
    [AttributeError] in place of that exception. *)
Theorem enable_rotation_raises_only_attribute_error client (r : record) h e :
  is_key_record r ->
  (rotationKey.perform_action client r h).1 = Raise e ->
  e = AttributeError "status_code" /\
  exists key_id class message,
    r !! "key_id" = Some key_id /\
    enable_key_rotation client (h ++ [EvUuid])
      {| ok_key_id := key_id; ok_sequence := uuid4_hex client h |}
    = Raise (PyError class message).
Proof.
  intros Hrec.
  destruct (key_record_fields r Hrec) as (key_id & _ & _ & _ & _ & Ek & _).
  unfold rotationKey.perform_action, getitem.
  unfold mbind, M_bind, bind. rewrite Ek. cbn [ret].
  rewrite (enable_condition_spec r h Hrec).
  destruct (bool_decide (enable_eligible r)); [|discriminate].
  unfold uuid4, try_except, request, log_info, emit.
  destruct (enable_key_rotation client (h ++ [EvUuid]) _) as [[]|e'] eqn:Hcall;
    [discriminate|].
  unfold rotationKey.handler, log_info, log_error, emit, raise.
  destruct e' as [c ? ? ?|c ? ? ?|class message]; cbn;
    try (destruct (c =? 400); discriminate).
  intros [= <-]. split; [done|]. eauto.
Qed.

(** Extra X10.  A record whose [default_key_flag] is present and differs
    from ["0"] is skipped with the skip log whatever its other fields are,
    even when they are absent. *)
Theorem enable_rotation_short_circuit client (r : record) h key_id flag :
  r !! "key_id" = Some key_id ->
  r !! "default_key_flag" = Some flag ->
  flag <> VStr "0" ->
  rotationKey.perform_action client r h
  = (Ret tt, h ++ [EvLog INFO rotationKey.skip_message [key_id]]).
Proof.
  intros Ek Ef Hflag.
  unfold rotationKey.perform_action, rotationKey.condition, and_then, getitem.
  unfold mbind, M_bind, bind. rewrite Ek, Ef. cbn [ret].
  rewrite eq_str_decide, (bool_decide_eq_false_2 _ Hflag). reflexivity.
Qed.

(** Extra X11.  [enable_key_rotation] raises [KeyError], before any
    request or log, on a record without [key_id], without
    [default_key_flag], or with flag ["0"] and without [key_spec]. *)
Theorem enable_rotation_missing_field client (r : record) h :
  (r !! "key_id" = None ->
   rotationKey.perform_action client r h = (Raise (KeyError "key_id"), h)) /\
  (forall key_id,
     r !! "key_id" = Some key_id ->
     r !! "default_key_flag" = None ->
     rotationKey.perform_action client r h = (Raise (KeyError "default_key_flag"), h)) /\
  (forall key_id,
     r !! "key_id" = Some key_id ->
     r !! "default_key_flag" = Some (VStr "0") ->
     r !! "key_spec" = None ->
     rotationKey.perform_action client r h = (Raise (KeyError "key_spec"), h)).
Proof.
  unfold rotationKey.perform_action, rotationKey.condition, and_then, getitem.
  unfold mbind, M_bind, bind.
  split; [|split].
  - by intros ->.
  - by intros key_id -> ->.
  - by intros key_id -> -> ->.
Qed.

Lemma enable_condition_true_inv (r : record) h h' :
  rotationKey.condition r h = (Ret true, h') -> enable_eligible r.
Proof.
  unfold enable_eligible.
  unfold rotationKey.condition, and_then, getitem, in_strs, eq_str.
  unfold mbind, M_bind, bind, ret, raise.
  destruct (r !! "default_key_flag") as [[]|]; try discriminate.
  case_bool_decide as D1; [subst|discriminate].
  destruct (r !! "key_spec") as [[]|]; try discriminate.
  case_bool_decide as D2; [|discriminate].
  destruct (r !! "keystore_id") as [[]|]; try discriminate.
  case_bool_decide as D3; [subst|discriminate].
  destruct (r !! "key_state") as [[]|]; try discriminate.
  case_bool_decide as D4; [|discriminate].
  intros _. split; [done|]. split; [|split; [done|]].
  - unfold rotationKey.supportList in D2.
    apply elem_of_cons in D2 as [->|D2]; [auto|].
    apply list_elem_of_singleton in D2 as ->. auto.
  - apply list_elem_of_singleton in D4 as ->. done.
Qed.

(** Extra X12.  Every record that passes the eligibility test of
    [enable_key_rotation] passes the one of [disable_key_rotation]. *)
Theorem enable_condition_implies_disable_condition (r : record) h :
  rotationKey.condition r h = (Ret true, h) ->
  disableRotationKey.condition r h = (Ret true, h).
Proof.
  intros (E1 & E2 & E3 & E4)%enable_condition_true_inv.
  apply disable_condition_true. unfold disable_eligible.
  split; [done|]. split; [|split; [done | auto]].
  assert (Hnot : forall s, s = "AES_256" \/ s = "SM4" ->
                           VStr s ∉ VStr <$> disableRotationKey.notSupportList).
  { intros s Hs (s' & [= <-] & Hin)%list_elem_of_fmap.
    unfold disableRotationKey.notSupportList in Hin.
    repeat (apply elem_of_cons in Hin as [->|Hin]; [destruct Hs; discriminate|]).
    by apply elem_of_nil in Hin. }
  destruct E2 as [-> | ->]; (split; [done | apply Hnot; auto]).
Qed.

(** Extra X13.  [enable_key] and [disable_key] test nothing: a record
    without [key_id] raises [KeyError] before any request, and any other
    record gives exactly one request whose outcome, result or exception, is
    the outcome of the action. *)
Theorem key_switch_is_unconditional client (r : record) h :
  (r !! "key_id" = None ->
   enableKey.perform_action client r h = (Raise (KeyError "key_id"), h) /\
   disableKey.perform_action client r h = (Raise (KeyError "key_id"), h)) /\
  (forall key_id,
     r !! "key_id" = Some key_id ->
     let body := {| ok_key_id := key_id; ok_sequence := uuid4_hex client h |} in
     enableKey.perform_action client r h
     = (enable_key client (h ++ [EvUuid]) body, h ++ [EvUuid; EvCall (enable_key_call body)]) /\
     disableKey.perform_action client r h
     = (disable_key client (h ++ [EvUuid]) body,
        h ++ [EvUuid; EvCall (disable_key_call body)])).
Proof.
  unfold enableKey.perform_action, disableKey.perform_action, getitem.
  unfold uuid4, try_except, request, raise. unfold mbind, M_bind, bind.
  split.
  - by intros ->.
  - intros key_id Hk. rewrite Hk. cbn [ret]. cbv zeta.
    destruct (enable_key client _ _) as [[]|?], (disable_key client _ _) as [[]|?];
      by rewrite <- !app_assoc.
Qed.

Lemma disable_rotation_is_silent_witness :
  is_key_record rsa_key /\
  exists key_id emitted,
    rsa_key !! "key_id" = Some key_id /\
    (disableRotationKey.perform_action quiet rsa_key []).2 = [] ++ emitted /\
    (disable_eligible rsa_key ->
       emitted = [EvUuid;
                  EvCall (disable_key_rotation_call
                            {| ok_key_id := key_id; ok_sequence := uuid4_hex quiet [] |})]) /\
    (~ disable_eligible rsa_key ->
       (disableRotationKey.perform_action quiet rsa_key []).1 = Ret tt /\ emitted = []).
Proof.
  split; [reflexivity | apply (disable_rotation_is_silent quiet rsa_key []); reflexivity].
Defined.

Lemma enable_rotation_success_witness :
  rotationKey.perform_action quiet aes_key []
  = (Ret tt,
     [] ++ [EvUuid;
            EvCall (enable_key_rotation_call
                      {| ok_key_id := VStr "k-aes"; ok_sequence := uuid4_hex quiet [] |});
            EvLog INFO rotationKey.success_message [VStr "k-aes"]]).
Proof.
  apply (enable_rotation_success quiet aes_key [] (VStr "k-aes")); try reflexivity.
  vm_compute. repeat split; auto.
Defined.

Lemma enable_rotation_raises_only_attribute_error_witness :
  AttributeError "status_code" = AttributeError "status_code" /\
  exists key_id class message,
    aes_key !! "key_id" = Some key_id /\
    enable_key_rotation (rotation_answers (Raise connection_error)) ([] ++ [EvUuid])
      {| ok_key_id := key_id;
         ok_sequence := uuid4_hex (rotation_answers (Raise connection_error)) [] |}
    = Raise (PyError class message).
Proof.
  apply (enable_rotation_raises_only_attribute_error
           (rotation_answers (Raise connection_error)) aes_key []); reflexivity.
Defined.

Lemma enable_rotation_short_circuit_witness :
  rotationKey.perform_action quiet bare_default_key []
  = (Ret tt, [] ++ [EvLog INFO rotationKey.skip_message [VStr "k-default"]]).
Proof.
  apply (enable_rotation_short_circuit quiet bare_default_key [] (VStr "k-default") (VStr "1"));
    [reflexivity | reflexivity | discriminate].
Defined.

Lemma enable_rotation_missing_field_witness :
  rotationKey.perform_action quiet ∅ [] = (Raise (KeyError "key_id"), []) /\
  rotationKey.perform_action quiet (<["key_id" := VStr "k"]> ∅) []
  = (Raise (KeyError "default_key_flag"), []) /\
  rotationKey.perform_action quiet
    (<["key_id" := VStr "k"]> (<["default_key_flag" := VStr "0"]> ∅)) []
  = (Raise (KeyError "key_spec"), []).
Proof.
  split; [|split].
  - apply (enable_rotation_missing_field quiet ∅ []). reflexivity.
  - apply (enable_rotation_missing_field quiet (<["key_id" := VStr "k"]> ∅) [])
      with (key_id := VStr "k"); reflexivity.
  - apply (enable_rotation_missing_field quiet
             (<["key_id" := VStr "k"]> (<["default_key_flag" := VStr "0"]> ∅)) [])
      with (key_id := VStr "k"); reflexivity.
Defined.

Lemma enable_condition_implies_disable_condition_witness :
  disableRotationKey.condition aes_key [] = (Ret true, []).
Proof.
  apply (enable_condition_implies_disable_condition aes_key []). reflexivity.
Defined.

Lemma key_switch_is_unconditional_witness :
  enableKey.perform_action quiet ∅ [] = (Raise (KeyError "key_id"), []) /\
  disableKey.perform_action (rotation_answers (Raise unavailable)) rsa_key []
  = (disable_key (rotation_answers (Raise unavailable)) ([] ++ [EvUuid])
       {| ok_key_id := VStr "k-aes"; ok_sequence := uuid4_hex quiet [] |},
     [] ++ [EvUuid;
            EvCall (disable_key_call
                      {| ok_key_id := VStr "k-aes"; ok_sequence := uuid4_hex quiet [] |})]).
Proof.
  split.
  - apply (key_switch_is_unconditional quiet ∅ []). reflexivity.
  - apply (key_switch_is_unconditional (rotation_answers (Raise unavailable)) rsa_key []
             ) with (key_id := VStr "k-aes"). reflexivity.
Defined.

(** ** Properties of the string operations *)

Lemma length_append a b :
  String.length (a +:+ b) = (String.length a + String.length b)%nat.
Proof. induction a as [|c a IH]; simpl; [done | by f_equal]. Qed.

Lemma substring_whole s : String.substring 0 (String.length s) s = s.
Proof. induction s as [|c s IH]; simpl; [done | by f_equal]. Qed.

Lemma substring_take_app a b :
  String.substring 0 (String.length a) (a +:+ b) = a.
Proof.
  induction a as [|c a IH]; simpl; [by destruct b | by f_equal].
Qed.

Lemma substring_drop_app a b n :
  String.substring (String.length a) n (a +:+ b) = String.substring 0 n b.
Proof. induction a as [|c a IH]; simpl; [done | exact IH]. Qed.

Lemma clamp_len_app a b :
  PyString.clamp (PyString.len a) (PyString.len (a +:+ b)) = PyString.len a.
Proof.
  unfold PyString.clamp, PyString.len. rewrite length_append.
  destruct (Z.of_nat (String.length a) <? 0) eqn:E; [apply Z.ltb_lt in E; lia | lia].
Qed.

Lemma slice_to_app a b : PyString.slice_to (a +:+ b) (PyString.len a) = a.
Proof.
  unfold PyString.slice_to. rewrite clamp_len_app. unfold PyString.len.
  rewrite Nat2Z.id. apply substring_take_app.
Qed.

Lemma slice_from_app a b : PyString.slice_from (a +:+ b) (PyString.len a) = b.
Proof.
  unfold PyString.slice_from. rewrite clamp_len_app. unfold PyString.len.
  rewrite Nat2Z.id, substring_drop_app, length_append.
  replace (String.length a + String.length b - String.length a)%nat
    with (String.length b) by lia.
  apply substring_whole.
Qed.

Lemma prefix_empty s : String.prefix "" s = true.
Proof. by destruct s. Qed.

Lemma prefix_single d c s :
  String.prefix (String d "") (String c s) = bool_decide (d = c).
Proof.
  change (String.prefix (String d "") (String c s))
    with (match Ascii.ascii_dec d c with
          | left _ => String.prefix "" s
          | right _ => false
          end).
  destruct (Ascii.ascii_dec d c) as [->|Hne].
  - by rewrite prefix_empty, bool_decide_eq_true_2.
  - by rewrite bool_decide_eq_false_2.
Qed.

Lemma rfind_from_absent sub s i :
  occurs sub s = false -> PyString.rfind_from sub s i = -1.
Proof.
  revert i. induction s as [|c s IH]; intros i; cbn [occurs PyString.rfind_from].
  - rewrite orb_false_r. by intros ->.
  - intros [Hp Hs]%orb_false_elim. rewrite (IH _ Hs), Hp. reflexivity.
Qed.

Lemma rfind_from_last sub a c t i :
  0 <= i ->
  String.prefix sub (String c t) = true ->
  occurs sub t = false ->
  PyString.rfind_from sub (a +:+ String c t) i = i + PyString.len a.
Proof.
  intros Hi Hp Ht. revert i Hi. induction a as [|d a IH]; intros i Hi.
  - change ("" +:+ String c t) with (String c t). cbn [PyString.rfind_from].
    rewrite (rfind_from_absent _ _ _ Ht), Hp.
    unfold PyString.len. cbn. lia.
  - change (String d a +:+ String c t) with (String d (a +:+ String c t)).
    cbn [PyString.rfind_from]. rewrite IH by lia.
    unfold PyString.len. cbn [String.length].
    destruct (0 <=? i + 1 + Z.of_nat (String.length a)) eqn:E; [lia|].
    apply Z.leb_gt in E. lia.
Qed.

Lemma find_from_slash a t i :
  occurs "/" a = false ->
  PyString.find_from "/" (a +:+ String "/" t) i = i + PyString.len a.
Proof.
  revert i. induction a as [|d a IH]; intros i.
  - intros _. change ("" +:+ String "/" t) with (String "/" t).
    cbn [PyString.find_from].
    rewrite prefix_single, bool_decide_eq_true_2 by done.
    unfold PyString.len. cbn [String.length]. lia.
  - cbn [occurs]. intros [Hp Hs]%orb_false_elim.
    change (String d a +:+ String "/" t) with (String d (a +:+ String "/" t)).
    cbn [PyString.find_from].
    assert (Hp' : String.prefix "/" (String d (a +:+ String "/" t)) = false).
    { rewrite prefix_single in *. exact Hp. }
    rewrite Hp', IH by done. unfold PyString.len. cbn [String.length]. lia.
Qed.

Lemma append_cons d a b : String d a +:+ b = String d (a +:+ b).
Proof. reflexivity. Qed.

Lemma append_assoc a b c : (a +:+ b) +:+ c = a +:+ b +:+ c.
Proof. induction a as [|d a IH]; [done | by rewrite !append_cons, IH]. Qed.

Lemma split1_slash a t :
  occurs "/" a = false ->
  PyString.split1 "/" (a +:+ String "/" t) = [a; t].
Proof.
  intros Ha. unfold PyString.split1, PyString.find.
  rewrite (find_from_slash a t 0 Ha).
  destruct (0 + PyString.len a <? 0) eqn:E;
    [apply Z.ltb_lt in E; unfold PyString.len in E; lia|].
  rewrite Z.add_0_l. f_equal; [apply slice_to_app|]. f_equal.
  change (String "/" t) with ("/" +:+ t). rewrite <- append_assoc.
  replace (PyString.len a + PyString.len "/") with (PyString.len (a +:+ "/"))
    by (unfold PyString.len; rewrite length_append;
        change (String.length "/") with 1%nat; lia).
  apply slice_from_app.
Qed.

Lemma path_without_protocol_app pre rest :
  String.length pre = 8%nat -> path_without_protocol (pre +:+ rest) = rest.
Proof.
  intros Hpre. unfold path_without_protocol.
  replace (PyString.len "https://") with (PyString.len pre)
    by (unfold PyString.len; rewrite Hpre; reflexivity).
  apply slice_from_app.
Qed.

(** Extra X14.  For every URL made of an eight-character protocol prefix,
    a bucket, [".obs."], an endpoint without slash, a slash and an object
    path, where [".obs"] does not occur again after the bucket, the helpers
    return the bucket, ["obs."] followed by the endpoint, and the path. *)
Theorem url_decomposition_general (pre bucket endpoint path : string) :
  String.length pre = 8%nat ->
  occurs ".obs" ("." +:+ endpoint +:+ "/" +:+ path) = false ->
  occurs "/" endpoint = false ->
  let p := path_without_protocol
             (pre +:+ bucket +:+ ".obs." +:+ endpoint +:+ "/" +:+ path) in
  get_obs_name p = bucket /\
  get_obs_server p = Ret ("obs." +:+ endpoint) /\
  get_file_path p = Ret path.
Proof.
  intros Hpre Hlast Hhost p. subst p. rewrite (path_without_protocol_app _ _ Hpre).
  set (tail := "obs." +:+ endpoint +:+ "/" +:+ path).
  change (bucket +:+ ".obs." +:+ endpoint +:+ "/" +:+ path)
    with (bucket +:+ String "." tail).
  assert (Hrfind : PyString.rfind ".obs" (bucket +:+ String "." tail) = PyString.len bucket).
  { unfold PyString.rfind. rewrite rfind_from_last; [lia | lia | | exact Hlast].
    reflexivity. }
  assert (Hsplit : PyString.split1 "/" (String "." tail) = [".obs." +:+ endpoint; path]).
  { change (String "." tail) with (".obs." +:+ endpoint +:+ String "/" path).
    rewrite <- append_assoc. apply split1_slash.
    exact Hhost. }
  unfold get_obs_name, get_obs_server, get_file_path.
  rewrite Hrfind, slice_to_app, slice_from_app, Hsplit.
  split; [done|]. split; reflexivity.
Qed.

(** Extra X15.  [get_obs_server] never raises; [get_file_path] raises
    exactly when no slash follows the last [".obs"], and then it raises
    [IndexError]. *)
Theorem url_helpers_failure (p : string) :
  (exists server, get_obs_server p = Ret server) /\
  (get_file_path p = Raise IndexError <->
   PyString.find "/" (PyString.slice_from p (PyString.rfind ".obs" p)) < 0) /\
  (forall e, get_file_path p = Raise e -> e = IndexError).
Proof.
  unfold get_obs_server, get_file_path, PyString.split1.
  destruct (PyString.find "/" _ <? 0) eqn:E.
  - apply Z.ltb_lt in E. cbn. split; [eauto|]. split; [done | by intros e [= <-]].
  - apply Z.ltb_ge in E. cbn. split; [eauto|]. split; [|discriminate].
    split; [discriminate | lia].
Qed.

Lemma clamp_last (n : nat) : PyString.clamp (-1) (Z.of_nat (S n)) = Z.of_nat n.
Proof. unfold PyString.clamp. cbn [Z.ltb Z.compare]. lia. Qed.

(** Extra X16.  On a text without [".obs"], [rfind] gives -1 and the
    helpers cut before the last character: the bucket name is the text
    without its last character, and unless that character is a slash the
    object path raises [IndexError]. *)
Theorem url_without_obs (a : string) (c : Ascii.ascii) :
  occurs ".obs" (a +:+ String c "") = false ->
  get_obs_name (a +:+ String c "") = a /\
  (c <> "/"%char ->
   get_obs_server (a +:+ String c "") = Ret (PyString.lstrip "." (String c "")) /\
   get_file_path (a +:+ String c "") = Raise IndexError).
Proof.
  intros Hno.
  assert (Hrfind : PyString.rfind ".obs" (a +:+ String c "") = -1)
    by (by apply rfind_from_absent).
  assert (Hlen : PyString.len (a +:+ String c "") = Z.of_nat (S (String.length a))).
  { unfold PyString.len. rewrite length_append. cbn [String.length]. f_equal. lia. }
  assert (Hname : PyString.slice_to (a +:+ String c "") (-1) = a).
  { unfold PyString.slice_to. rewrite Hlen, clamp_last, Nat2Z.id.
    apply substring_take_app. }
  assert (Hrest : PyString.slice_from (a +:+ String c "") (-1) = String c "").
  { unfold PyString.slice_from. rewrite Hlen, clamp_last, Nat2Z.id.
    unfold PyString.len. rewrite substring_drop_app, length_append.
    replace (String.length a + String.length (String c "") - String.length a)%nat
      with (String.length (String c "")) by lia.
    apply substring_whole. }
  unfold get_obs_name, get_obs_server, get_file_path.
  rewrite Hrfind, Hname, Hrest. split; [done|]. intros Hne.
  unfold PyString.split1, PyString.find. cbn [PyString.find_from].
  rewrite prefix_single, bool_decide_eq_false_2 by congruence.
  split; reflexivity.
Qed.

Lemma prefix_cons d p c s :
  String.prefix (String d p) (String c s) = bool_decide (d = c) && String.prefix p s.
Proof.
  change (String.prefix (String d p) (String c s))
    with (match Ascii.ascii_dec d c with
          | left _ => String.prefix p s
          | right _ => false
          end).
  destruct (Ascii.ascii_dec d c) as [->|Hne].
  - by rewrite bool_decide_eq_true_2.
  - by rewrite bool_decide_eq_false_2.
Qed.

Lemma occurs_cons sub c s :
  occurs sub (String c s) = String.prefix sub (String c s) || occurs sub s.
Proof. reflexivity. Qed.

Lemma replace_go_skip old new x s :
  PyString.replace_go old new (String.length x) (x +:+ s)
  = PyString.replace_go old new 0 s.
Proof.
  induction x as [|c x IH]; [done|].
  rewrite append_cons. cbn [String.length PyString.replace_go]. exact IH.
Qed.

Lemma append_nil_l s : "" +:+ s = s.
Proof. reflexivity. Qed.

Lemma prefix_nil_r d p : String.prefix (String d p) "" = false.
Proof. reflexivity. Qed.

Lemma no_slash_head c s :
  occurs "/" (String c s) = false -> c <> "/"%char /\ occurs "/" s = false.
Proof.
  rewrite occurs_cons, prefix_single.
  intros [Hc Hs]%orb_false_elim. split; [|done].
  apply bool_decide_eq_false in Hc. congruence.
Qed.

Ltac peel_slash Ha :=
  repeat match type of Ha with
         | occurs "/" (String _ _) = false =>
             apply no_slash_head in Ha as [? Ha]
         end.

Ltac prefix_false :=
  rewrite ?append_cons, ?append_nil_l, ?append_cons;
  rewrite ?prefix_cons, ?prefix_nil_r;
  repeat (case_bool_decide; [|reflexivity]); subst;
  try reflexivity; try congruence; try discriminate.

(** Without a slash there is no match of ["alias/"]. *)
Lemma no_slash_no_alias_prefix s :
  occurs "/" s = false -> String.prefix "alias/" s = false.
Proof.
  intros Ha.
  destruct s as [|c1 [|c2 [|c3 [|c4 [|c5 [|c6 s]]]]]]; try reflexivity;
    peel_slash Ha; prefix_false.
Qed.

(** A match cannot start inside a slash-free text that precedes ["alias/"]. *)
Lemma no_straddling_alias_prefix c a b :
  occurs "/" (String c a) = false ->
  String.prefix "alias/" (String c a +:+ "alias/" +:+ b) = false.
Proof.
  intros Ha.
  destruct a as [|c2 [|c3 [|c4 [|c5 [|c6 a]]]]];
    peel_slash Ha; prefix_false.
Qed.

Lemma replace_go_no_slash s :
  occurs "/" s = false -> PyString.replace_go "alias/" "" 0 s = s.
Proof.
  induction s as [|c s IH]; [done|].
  intros Hs. cbn [PyString.replace_go].
  rewrite (no_slash_no_alias_prefix _ Hs).
  apply no_slash_head in Hs as [_ Hs]. by rewrite (IH Hs).
Qed.

(** Extra X17.  The stripping of listed aliases removes ["alias/"] wherever
    it occurs, not only in front: an occurrence after a slash-free text is
    dropped and stripping goes on behind it; a name without slash is left
    as it is. *)
Theorem alias_prefix_removed_everywhere (a b : string) :
  occurs "/" a = false ->
  PyString.replace "alias/" "" (a +:+ "alias/" +:+ b)
  = a +:+ PyString.replace "alias/" "" b /\
  (occurs "/" b = false -> PyString.replace "alias/" "" b = b).
Proof.
  intros Ha. split; [|apply replace_go_no_slash].
  unfold PyString.replace. induction a as [|c a IH].
  - rewrite !append_nil_l.
    change ("alias/" +:+ b) with (String "a" ("lias/" +:+ b)).
    cbn [PyString.replace_go].
    replace (String.prefix "alias/" (String "a" ("lias/" +:+ b))) with true
      by (symmetry; rewrite !append_cons, append_nil_l, !prefix_cons, prefix_empty;
          reflexivity).
    rewrite append_nil_l.
    apply (replace_go_skip "alias/" "" "lias/" b).
  - rewrite append_cons. cbn [PyString.replace_go].
    change (String c (a +:+ "alias/" +:+ b)) with (String c a +:+ "alias/" +:+ b).
    rewrite (no_straddling_alias_prefix c a b Ha).
    apply no_slash_head in Ha as [_ Ha]. rewrite (IH Ha).
    by rewrite append_cons.
Qed.

Lemma url_decomposition_general_witness :
  get_obs_name
    (path_without_protocol "https://custodian0527.obs.sa-brazil-1.myhuaweicloud.com/kms.txt")
  = "custodian0527" /\
  get_obs_server
    (path_without_protocol "https://custodian0527.obs.sa-brazil-1.myhuaweicloud.com/kms.txt")
  = Ret "obs.sa-brazil-1.myhuaweicloud.com" /\
  get_file_path
    (path_without_protocol "https://custodian0527.obs.sa-brazil-1.myhuaweicloud.com/kms.txt")
  = Ret "kms.txt".
Proof.
  apply (url_decomposition_general
           "https://" "custodian0527" "sa-brazil-1.myhuaweicloud.com" "kms.txt");
    reflexivity.
Defined.

Lemma url_without_obs_witness :
  get_obs_name "bucket.example.com" = "bucket.example.co" /\
  ("m"%char <> "/"%char ->
   get_obs_server "bucket.example.com" = Ret (PyString.lstrip "." "m") /\
   get_file_path "bucket.example.com" = Raise IndexError).
Proof.
  apply (url_without_obs "bucket.example.co" "m"). reflexivity.
Defined.

Lemma alias_prefix_removed_everywhere_witness :
  PyString.replace "alias/" "" "myalias/x" = "my" +:+ PyString.replace "alias/" "" "x" /\
  (occurs "/" "x" = false -> PyString.replace "alias/" "" "x" = "x").
Proof.
  apply (alias_prefix_removed_everywhere "my" "x"). reflexivity.
Defined.

(** ** Further properties of [create-key-with-alias] *)

Lemma for_each_all_present client (arr : gset string) l h :
  (forall x, x ∈ l -> x ∈ arr) ->
  for_each l (createKey.create_missing client arr) h = (Ret tt, h).
Proof.
  induction l as [|x l IH]; intros Hall; [reflexivity|].
  cbn [for_each]. unfold mbind, M_bind, bind.
  rewrite create_missing_present by (apply Hall; left).
  apply IH. intros y Hy. apply Hall. by right.
Qed.

Lemma nonempty_list_to_set (l : list string) :
  l <> [] -> size (list_to_set l : gset string) <> 0%nat.
Proof.
  destruct l as [|x l]; [done|]. intros _ Hz.
  apply size_empty_iff in Hz. set_solver.
Qed.

(** The run of [process] once the desired set is known and the aliases are
    listed: only the creation loop is left. *)
Lemma process_without_manifest client set_iter (data : ActionData) h resp first :
  obs_url data = None \/ obs_url data = Some "" ->
  (obs_url data = None -> default [] (key_aliases data) <> []) ->
  list_aliases client h = Ret resp ->
  la_body resp !! 0%nat = Some first ->
  createKey.process client set_iter data h
  = ((if bool_decide (size (list_to_set (default [] (key_aliases data)) : gset string)
                      ≠ 0%nat)
      then for_each (set_iter (list_to_set (default [] (key_aliases data))))
                    (createKey.create_missing client (existing_aliases first))
      else ret tt) ;; ret NoneValue) (h ++ [EvCall list_aliases_call]).
Proof.
  intros Hurl Hne Hlist Hfirst. unfold createKey.process.
  assert (Hearly : bool_decide (default [] (key_aliases data) = [])
                   && bool_decide (obs_url data = None) = false).
  { destruct Hurl as [Hn | Hs].
    - by rewrite (bool_decide_eq_false_2 _ (Hne Hn)).
    - rewrite Hs, andb_false_iff. right. by apply bool_decide_eq_false. }
  rewrite Hearly.
  assert (Hfetch : match obs_url data with
                   | Some url =>
                       if bool_decide (url ≠ "")
                       then createKey.fetch_manifest client
                              (list_to_set (default [] (key_aliases data))) url
                       else ret (inl (list_to_set (default [] (key_aliases data))))
                   | None => ret (inl (list_to_set (default [] (key_aliases data))))
                   end = ret (inl (list_to_set (default [] (key_aliases data))))).
  { destruct Hurl as [-> | ->]; [done|]. by rewrite bool_decide_eq_false_2 by (by intros []). }
  rewrite Hfetch.
  unfold mbind at 1, M_bind at 1, bind at 1. cbn [ret].
  unfold mbind at 1, M_bind at 1, bind at 1. unfold request at 1. rewrite Hlist.
  unfold mbind at 1, M_bind at 1, bind at 1. rewrite Hfirst. cbn [ret].
  reflexivity.
Qed.

(** Extra X18.  Without a manifest, when every configured alias is among
    the listed ones, the action issues the listing request only and creates
    nothing; this includes an empty alias list with an empty [obs_url]. *)
Theorem nothing_missing_creates_nothing client set_iter (data : ActionData) h resp first :
  (forall s : gset string, set_iter s ≡ₚ elements s) ->
  obs_url data = None \/ obs_url data = Some "" ->
  (obs_url data = None -> default [] (key_aliases data) <> []) ->
  list_aliases client h = Ret resp ->
  la_body resp !! 0%nat = Some first ->
  (forall x, x ∈ default [] (key_aliases data) -> x ∈ existing_aliases first) ->
  createKey.process client set_iter data h
  = (Ret NoneValue, h ++ [EvCall list_aliases_call]).
Proof.
  intros Hiter Hurl Hne Hlist Hfirst Hall.
  rewrite (process_without_manifest client set_iter data h resp first) by assumption.
  unfold mbind, M_bind, bind. case_bool_decide; [|reflexivity].
  rewrite for_each_all_present; [reflexivity|].
  intros x Hx. apply Hall. rewrite Hiter in Hx. set_solver.
Qed.

Lemma created_aliases_app e1 e2 :
  created_aliases (e1 ++ e2) = created_aliases e1 ++ created_aliases e2.
Proof. apply omap_app. Qed.

Lemma created_keys_app e1 e2 :
  created_keys (e1 ++ e2) = (created_keys e1 + created_keys e2)%nat.
Proof. unfold created_keys. by rewrite List.filter_app, length_app. Qed.

Lemma create_missing_succeeds client (arr : gset string) x h :
  creation_succeeds client ->
  x ∉ arr ->
  exists info,
    createKey.create_missing client arr x h
    = (Ret tt,
       h ++ [EvTime;
             EvCall (create_key_call
                       {| ck_key_alias := PyString.of_int (time_time client h) |});
             EvCall (create_alias_call
                       {| ca_key_id := ki_key_id info; ca_alias := "alias/" +:+ x |});
             EvSleep 1]).
Proof.
  intros [Hkey Halias] Hout.
  unfold createKey.create_missing. rewrite (bool_decide_eq_false_2 _ Hout).
  unfold mbind, M_bind, bind, now, try_except, request, sleep, emit, raise, ret.
  destruct (Hkey (h ++ [EvTime])
              {| ck_key_alias := PyString.of_int (time_time client h) |})
    as [info ->].
  exists info. cbn [key_info]. rewrite Halias. by rewrite <- !app_assoc.
Qed.

Lemma for_each_creates client (arr : gset string) l :
  creation_succeeds client ->
  forall h, exists emitted,
    for_each l (createKey.create_missing client arr) h = (Ret tt, h ++ emitted) /\
    created_aliases emitted
    = map (fun x => "alias/" +:+ x) (List.filter (fun x => bool_decide (x ∉ arr)) l) /\
    created_keys emitted = length (List.filter (fun x => bool_decide (x ∉ arr)) l).
Proof.
  intros Hok. induction l as [|x l IH]; intros h.
  - exists []. by rewrite app_nil_r.
  - cbn [for_each List.filter]. unfold mbind, M_bind, bind.
    destruct (decide (x ∈ arr)) as [Hin|Hout].
    + rewrite (create_missing_present _ _ _ _ Hin).
      rewrite (bool_decide_eq_false_2 (x ∉ arr)) by (by intros ?). apply IH.
    + rewrite (bool_decide_eq_true_2 (x ∉ arr) Hout).
      destruct (create_missing_succeeds client arr x h Hok Hout) as [info ->].
      match goal with
      | |- context [for_each l _ (h ++ ?evs)] =>
          destruct (IH (h ++ evs)) as (emitted & Hrun & Ha & Hk); exists (evs ++ emitted);
          rewrite Hrun
      end.
      split; [by rewrite app_assoc|]. split.
      * rewrite created_aliases_app, Ha. reflexivity.
      * rewrite created_keys_app, Hk. reflexivity.
Qed.

(** Extra X19.  Without a manifest and with a provider whose creations
    succeed, the action creates one key and one alias ["alias/<name>"] for
    each desired alias that is not listed, in the order the set is visited,
    and nothing for the others. *)
Theorem one_creation_per_missing_alias client set_iter (data : ActionData) h resp first :
  creation_succeeds client ->
  obs_url data = None ->
  default [] (key_aliases data) <> [] ->
  list_aliases client h = Ret resp ->
  la_body resp !! 0%nat = Some first ->
  let missing :=
    List.filter (fun x => bool_decide (x ∉ existing_aliases first))
                (set_iter (list_to_set (default [] (key_aliases data)))) in
  exists emitted,
    createKey.process client set_iter data h = (Ret NoneValue, h ++ emitted) /\
    created_aliases emitted = map (fun x => "alias/" +:+ x) missing /\
    created_keys emitted = length missing.
Proof.
  intros Hok Hurl Hne Hlist Hfirst missing.
  rewrite (process_without_manifest client set_iter data h resp first); auto.
  rewrite (bool_decide_eq_true_2 _ (nonempty_list_to_set _ Hne)).
  destruct (for_each_creates client (existing_aliases first)
              (set_iter (list_to_set (default [] (key_aliases data)))) Hok
              (h ++ [EvCall list_aliases_call])) as (emitted & Hrun & Ha & Hk).
  exists ([EvCall list_aliases_call] ++ emitted).
  unfold mbind, M_bind, bind. rewrite Hrun.
  split; [by rewrite app_assoc|]. split.
  - by rewrite created_aliases_app.
  - by rewrite created_keys_app.
Qed.

(** Extra X20.  A failing [create_key] or [create_alias] ends the action
    with that exception: no later alias is attempted, and after a failing
    [create_alias] the key just created stays without alias. *)
Theorem creation_failure_aborts_batch client set_iter (data : ActionData) h resp first
    present alias rest :
  obs_url data = None ->
  default [] (key_aliases data) <> [] ->
  list_aliases client h = Ret resp ->
  la_body resp !! 0%nat = Some first ->
  set_iter (list_to_set (default [] (key_aliases data))) = present ++ alias :: rest ->
  (forall x, x ∈ present -> x ∈ existing_aliases first) ->
  alias ∉ existing_aliases first ->
  let h1 := h ++ [EvCall list_aliases_call] in
  let key_request := {| ck_key_alias := PyString.of_int (time_time client h1) |} in
  let h2 := h1 ++ [EvTime; EvCall (create_key_call key_request)] in
  (forall e,
     create_key client (h1 ++ [EvTime]) key_request = Raise e ->
     createKey.process client set_iter data h = (Raise e, h2)) /\
  (forall info e,
     create_key client (h1 ++ [EvTime]) key_request = Ret {| key_info := Some info |} ->
     let alias_request := {| ca_key_id := ki_key_id info; ca_alias := "alias/" +:+ alias |} in
     create_alias client h2 alias_request = Raise e ->
     createKey.process client set_iter data h
     = (Raise e, h2 ++ [EvCall (create_alias_call alias_request)])).
Proof.
  intros Hurl Hne Hlist Hfirst Horder Hpresent Hmissing h1 key_request h2.
  rewrite (process_without_manifest client set_iter data h resp first); auto.
  rewrite (bool_decide_eq_true_2 _ (nonempty_list_to_set _ Hne)), Horder.
  fold h1.
  assert (Hstep : forall out h',
            createKey.create_missing client (existing_aliases first) alias h1 = (Raise out, h') ->
            (for_each (present ++ alias :: rest)
                      (createKey.create_missing client (existing_aliases first)) ;;
             ret NoneValue) h1 = (Raise out, h')).
  { intros out h' Hrun. clear Horder. unfold mbind at 1, M_bind at 1, bind at 1.
    induction present as [|p present IH].
    - cbn [app for_each]. unfold mbind, M_bind, bind. by rewrite Hrun.
    - cbn [app for_each]. unfold mbind at 1, M_bind at 1, bind at 1.
      rewrite create_missing_present by (apply Hpresent; left).
      apply IH. intros x Hx. apply Hpresent. by right. }
  split.
  - intros e Hkey. apply Hstep.
    unfold createKey.create_missing. rewrite (bool_decide_eq_false_2 _ Hmissing).
    unfold mbind, M_bind, bind, now, try_except, request, raise.
    fold key_request. rewrite Hkey. unfold h2. by rewrite <- !app_assoc.
  - intros info e Hkey alias_request Halias. apply Hstep.
    unfold createKey.create_missing. rewrite (bool_decide_eq_false_2 _ Hmissing).
    unfold mbind, M_bind, bind, now, try_except, request, raise, ret.
    fold key_request. rewrite Hkey. cbn [key_info ki_key_id].
    fold alias_request. unfold h2 in *. rewrite <- !app_assoc in *. cbn [app] in *.
    by rewrite Halias.
Qed.

(** Extra X21.  A failing alias listing is raised to the caller, and a
    listing response with an empty body raises [IndexError]; no creation is
    attempted in either case. *)
Theorem alias_listing_failure client set_iter (data : ActionData) h :
  obs_url data = None ->
  default [] (key_aliases data) <> [] ->
  (forall e,
     list_aliases client h = Raise e ->
     createKey.process client set_iter data h = (Raise e, h ++ [EvCall list_aliases_call])) /\
  (list_aliases client h = Ret {| la_body := [] |} ->
   createKey.process client set_iter data h
   = (Raise IndexError, h ++ [EvCall list_aliases_call])).
Proof.
  intros Hurl Hne. unfold createKey.process.
  rewrite (bool_decide_eq_false_2 _ Hne), Hurl. cbn [andb].
  unfold mbind, M_bind, bind, request. cbn [ret].
  split; [intros e Hlist | intros Hlist]; by rewrite Hlist.
Qed.

(** The run of [process] through a successful manifest fetch. *)
Lemma process_with_manifest client set_iter (data : ActionData) h url0 server file resp :
  obs_url data = Some url0 ->
  url0 <> "" ->
  get_obs_server (path_without_protocol url0) = Ret server ->
  get_file_path (path_without_protocol url0) = Ret file ->
  getObject client h server (get_obs_name (path_without_protocol url0)) file = Ret resp ->
  status resp < 300 ->
  createKey.process client set_iter data h
  = match json_obs_key_aliases client (body_buffer resp) with
    | Raise e =>
        match e with
        | ClientRequestException status_code request_id error_code error_msg =>
            (log_error (PyString.of_int status_code)
                       [VStr request_id; VStr error_code; VStr error_msg] ;;
             raise e)
        | _ => raise e
        end
    | Ret obs_key_aliases =>
        (listAliasResponse ← request list_aliases_call (list_aliases client);
         first ← match la_body listAliasResponse !! 0%nat with
                 | Some b => ret b
                 | None => raise IndexError
                 end;
         (if bool_decide
               (size (list_to_set (default [] (key_aliases data))
                      ∪ list_to_set obs_key_aliases : gset string) ≠ 0%nat)
          then for_each (set_iter (list_to_set (default [] (key_aliases data))
                                   ∪ list_to_set obs_key_aliases))
                        (createKey.create_missing client (existing_aliases first))
          else ret tt) ;;
         ret NoneValue)
    end (h ++ [EvCall (getObject_call server
                         (get_obs_name (path_without_protocol url0)) file)]).
Proof.
  intros Hurl Hne Hserver Hfile Hget Hstatus.
  unfold createKey.process. rewrite (process_not_early data url0 Hurl), Hurl.
  rewrite (bool_decide_eq_true_2 _ Hne).
  unfold createKey.fetch_manifest. rewrite Hserver, Hfile.
  unfold mbind, M_bind, bind, lift, try_except, request. rewrite Hget.
  replace (status resp <? 300) with true by (symmetry; apply Z.ltb_lt; lia).
  destruct (json_obs_key_aliases client (body_buffer resp)) as [l|e]; [reflexivity|].
  by destruct e.
Qed.

(** Extra X22.  When the manifest is fetched but its content cannot be
    read, the parse error is raised without a log line and before the
    aliases are listed. *)
Theorem manifest_parse_error_propagates client set_iter (data : ActionData) h url0
    server file resp class message :
  obs_url data = Some url0 ->
  url0 <> "" ->
  get_obs_server (path_without_protocol url0) = Ret server ->
  get_file_path (path_without_protocol url0) = Ret file ->
  getObject client h server (get_obs_name (path_without_protocol url0)) file = Ret resp ->
  status resp < 300 ->
  json_obs_key_aliases client (body_buffer resp) = Raise (PyError class message) ->
  createKey.process client set_iter data h
  = (Raise (PyError class message),
     h ++ [EvCall (getObject_call server (get_obs_name (path_without_protocol url0)) file)]).
Proof.
  intros Hurl Hne Hserver Hfile Hget Hstatus Hjson.
  rewrite (process_with_manifest client set_iter data h url0 server file resp) by assumption.
  by rewrite Hjson.
Qed.

(** Extra X23.  With a manifest, the desired aliases are the configured
    ones together with the manifest's; with a provider whose creations
    succeed, one key and one alias are created for each of them that is not
    listed. *)
Theorem manifest_aliases_are_created client set_iter (data : ActionData) h url0
    server file resp obs_key_aliases aliases_response first :
  (forall s : gset string, set_iter s ≡ₚ elements s) ->
  creation_succeeds client ->
  obs_url data = Some url0 ->
  url0 <> "" ->
  get_obs_server (path_without_protocol url0) = Ret server ->
  get_file_path (path_without_protocol url0) = Ret file ->
  let fetch :=
    EvCall (getObject_call server (get_obs_name (path_without_protocol url0)) file) in
  getObject client h server (get_obs_name (path_without_protocol url0)) file = Ret resp ->
  status resp < 300 ->
  json_obs_key_aliases client (body_buffer resp) = Ret obs_key_aliases ->
  list_aliases client (h ++ [fetch]) = Ret aliases_response ->
  la_body aliases_response !! 0%nat = Some first ->
  let missing :=
    List.filter (fun x => bool_decide (x ∉ existing_aliases first))
                (set_iter (list_to_set (default [] (key_aliases data))
                           ∪ list_to_set obs_key_aliases)) in
  exists emitted,
    createKey.process client set_iter data h = (Ret NoneValue, h ++ emitted) /\
    created_aliases emitted = map (fun x => "alias/" +:+ x) missing /\
    created_keys emitted = length missing.
Proof.
  intros Hiter Hok Hurl Hne Hserver Hfile fetch Hget Hstatus Hjson Hlist Hfirst missing.
  rewrite (process_with_manifest client set_iter data h url0 server file resp) by assumption.
  rewrite Hjson. fold fetch.
  unfold mbind at 1, M_bind at 1, bind at 1. unfold request at 1. rewrite Hlist.
  unfold mbind at 1, M_bind at 1, bind at 1. rewrite Hfirst. cbn [ret].
  set (desired := list_to_set (default [] (key_aliases data)) ∪ list_to_set obs_key_aliases)
    in *.
  destruct (for_each_creates client (existing_aliases first) (set_iter desired) Hok
              ((h ++ [fetch]) ++ [EvCall list_aliases_call])) as (emitted & Hrun & Ha & Hk).
  unfold mbind, M_bind, bind. case_bool_decide as Hsize.
  - exists ([fetch; EvCall list_aliases_call] ++ emitted). rewrite Hrun.
    split; [by rewrite <- !app_assoc|]. split.
    + by rewrite created_aliases_app.
    + by rewrite created_keys_app.
  - exists [fetch; EvCall list_aliases_call].
    assert (Hnil : set_iter desired = []).
    { apply Permutation_nil_r. rewrite Hiter.
      assert (Hempty : desired = ∅).
      { apply leibniz_equiv, size_empty_iff. exact Hsize. }
      by rewrite Hempty, elements_empty. }
    subst missing. rewrite Hnil. split; [by rewrite <- !app_assoc|]. done.
Qed.

Lemma with_aliases_creation_succeeds existing : creation_succeeds (with_aliases existing).
Proof. split; intros; [eexists|]; reflexivity. Qed.

Lemma nothing_missing_creates_nothing_witness :
  createKey.process (with_aliases ["alias/a"; "alias/b"]) elements a_and_b []
  = (Ret NoneValue, [] ++ [EvCall list_aliases_call]).
Proof.
  apply (nothing_missing_creates_nothing
           (with_aliases ["alias/a"; "alias/b"]) elements a_and_b []
           {| la_body := [{| aliases := ["alias/a"; "alias/b"] |}] |}
           {| aliases := ["alias/a"; "alias/b"] |});
    [done | by left | discriminate | reflexivity | reflexivity |].
  intros x Hx. unfold existing_aliases. apply elem_of_list_to_set. exact Hx.
Defined.

Lemma one_creation_per_missing_alias_witness :
  exists emitted,
    createKey.process (with_aliases ["alias/a"; "alias/b"]) elements a_and_c []
    = (Ret NoneValue, [] ++ emitted) /\
    created_aliases emitted
    = map (fun x => "alias/" +:+ x)
          (List.filter (fun x => bool_decide
                                   (x ∉ existing_aliases
                                          {| aliases := ["alias/a"; "alias/b"] |}))
                       (elements (list_to_set (default [] (key_aliases a_and_c)) : gset string))) /\
    created_keys emitted
    = length (List.filter (fun x => bool_decide
                                      (x ∉ existing_aliases
                                             {| aliases := ["alias/a"; "alias/b"] |}))
                          (elements (list_to_set (default [] (key_aliases a_and_c)) : gset string))).
Proof.
  apply (one_creation_per_missing_alias
           (with_aliases ["alias/a"; "alias/b"]) elements a_and_c []
           {| la_body := [{| aliases := ["alias/a"; "alias/b"] |}] |}
           {| aliases := ["alias/a"; "alias/b"] |});
    [apply with_aliases_creation_succeeds | reflexivity | discriminate
    | reflexivity | reflexivity].
Defined.

Lemma creation_failure_aborts_batch_witness :
  createKey.process
    (scripted a_and_b_listed (Raise forbidden) (Ret tt) manifest_found (Ret [])) in_order
    a_c_d []
  = (Raise forbidden,
     ([] ++ [EvCall list_aliases_call])
       ++ [EvTime; EvCall (create_key_call {| ck_key_alias := "1762214400" |})]) /\
  createKey.process
    (scripted a_and_b_listed key_created (Raise unavailable) manifest_found (Ret [])) in_order
    a_c_d []
  = (Raise unavailable,
     (([] ++ [EvCall list_aliases_call])
        ++ [EvTime; EvCall (create_key_call {| ck_key_alias := "1762214400" |})])
       ++ [EvCall (create_alias_call {| ca_key_id := "key-1"; ca_alias := "alias/c" |})]).
Proof.
  split.
  - apply (creation_failure_aborts_batch
             (scripted a_and_b_listed (Raise forbidden) (Ret tt) manifest_found (Ret []))
             in_order a_c_d []
             {| la_body := [{| aliases := ["alias/a"; "alias/b"] |}] |}
             {| aliases := ["alias/a"; "alias/b"] |} ["a"] "c" ["d"]);
      try reflexivity; try discriminate.
    intros x ->%list_elem_of_singleton. vm_compute. reflexivity.
  - apply (creation_failure_aborts_batch
             (scripted a_and_b_listed key_created (Raise unavailable) manifest_found (Ret []))
             in_order a_c_d []
             {| la_body := [{| aliases := ["alias/a"; "alias/b"] |}] |}
             {| aliases := ["alias/a"; "alias/b"] |} ["a"] "c" ["d"])
      with (info := {| ki_key_id := "key-1" |});
      try reflexivity; try discriminate.
    intros x ->%list_elem_of_singleton. vm_compute. reflexivity.
Defined.

Lemma alias_listing_failure_witness :
  createKey.process
    (scripted (Raise unavailable) key_created (Ret tt) manifest_found (Ret [])) elements
    a_and_c []
  = (Raise unavailable, [] ++ [EvCall list_aliases_call]) /\
  createKey.process
    (scripted (Ret {| la_body := [] |}) key_created (Ret tt) manifest_found (Ret [])) elements
    a_and_c []
  = (Raise IndexError, [] ++ [EvCall list_aliases_call]).
Proof.
  split.
  - apply (alias_listing_failure
             (scripted (Raise unavailable) key_created (Ret tt) manifest_found (Ret []))
             elements a_and_c []); [reflexivity | discriminate | reflexivity].
  - apply (alias_listing_failure
             (scripted (Ret {| la_body := [] |}) key_created (Ret tt) manifest_found (Ret []))
             elements a_and_c []); [reflexivity | discriminate | reflexivity].
Defined.

Lemma manifest_parse_error_propagates_witness :
  createKey.process
    (scripted a_and_b_listed key_created (Ret tt) manifest_found
       (Raise (PyError "JSONDecodeError" "Expecting value")))
    elements from_manifest []
  = (Raise (PyError "JSONDecodeError" "Expecting value"),
     [] ++ [EvCall (getObject_call "obs.region1.example.com"
                      (get_obs_name (path_without_protocol url)) "path/to/kms.txt")]).
Proof.
  apply (manifest_parse_error_propagates
           (scripted a_and_b_listed key_created (Ret tt) manifest_found
              (Raise (PyError "JSONDecodeError" "Expecting value")))
           elements from_manifest [] url "obs.region1.example.com" "path/to/kms.txt"
           {| status := 200; body_buffer := "manifest"; errorCode := ""; errorMessage := "" |});
    try reflexivity; discriminate.
Defined.

Lemma scripted_creation_succeeds listing object json :
  creation_succeeds (scripted listing key_created (Ret tt) object json).
Proof. split; intros; [eexists|]; reflexivity. Qed.

Lemma manifest_aliases_are_created_witness :
  exists emitted,
    createKey.process
      (scripted a_and_b_listed key_created (Ret tt) manifest_found (Ret ["c"]))
      elements from_manifest []
    = (Ret NoneValue, [] ++ emitted) /\
    created_aliases emitted
    = map (fun x => "alias/" +:+ x)
          (List.filter
             (fun x => bool_decide
                         (x ∉ existing_aliases {| aliases := ["alias/a"; "alias/b"] |}))
             (elements (list_to_set (default [] (key_aliases from_manifest))
                        ∪ list_to_set ["c"] : gset string))) /\
    created_keys emitted
    = length
        (List.filter
           (fun x => bool_decide
                       (x ∉ existing_aliases {| aliases := ["alias/a"; "alias/b"] |}))
           (elements (list_to_set (default [] (key_aliases from_manifest))
                      ∪ list_to_set ["c"] : gset string))).
Proof.
  apply (manifest_aliases_are_created
           (scripted a_and_b_listed key_created (Ret tt) manifest_found (Ret ["c"]))
           elements from_manifest [] url "obs.region1.example.com" "path/to/kms.txt"
           {| status := 200; body_buffer := "manifest"; errorCode := ""; errorMessage := "" |}
           ["c"] {| la_body := [{| aliases := ["alias/a"; "alias/b"] |}] |}
           {| aliases := ["alias/a"; "alias/b"] |});
    try reflexivity; try discriminate; try done.
  apply scripted_creation_succeeds.
Defined.

Example manifest_adds_c :
  created_aliases
    (createKey.process
       (scripted a_and_b_listed key_created (Ret tt) manifest_found (Ret ["c"]))
       elements from_manifest []).2
  = ["alias/c"].
Proof. vm_compute. reflexivity. Qed.
